(** * Verification of beartype's import-hook AST transformer and of its
    lambda source-code getter.

    Part [Claw] embeds [beartype/claw/_ast/clawastmain.py]
    (class [BeartypeNodeTransformer]); part [FuncCode] embeds
    [beartype/_util/func/utilfunccode.py] ([get_func_code_or_none] and
    [_LambdaNodeUnparser]). *)

From Stdlib Require Import List String Ascii ZArith Bool Arith Lia.
From Stdlib Require Import DecimalString.
Import ListNotations.

Set Implicit Arguments.

(* ================================================================== *)
(** * Part I: [beartype.claw._ast.clawastmain]                          *)
(* ================================================================== *)

Module Claw.

Local Open Scope string_scope.
Local Open Scope list_scope.

(** ** Syntax trees, as the [ast] module has them *)

(** Source-code metadata of a node ([lineno], [col_offset], [end_lineno],
    [end_col_offset]).  A node whose attributes were never set (a [Module]
    node, or a node just synthesised) has [None]. *)
Record position : Type := Position {
  lineno : Z;
  col_offset : Z;
  end_lineno : Z;
  end_col_offset : Z
}.

Definition metadata : Type := option position.

(** Beartype configuration: an opaque handle, compared by identity. *)
Record BeartypeConf : Type := Conf { conf_id : Z }.

(** Values of [ast.Constant] nodes. *)
Inductive constant : Type :=
| ConstStr (s : string)
| ConstInt (z : Z)
| ConstBool (b : bool)
| ConstNone
| ConstEllipsis.

(** Expressions.  No expression contains a statement, so the transformer
    (whose visitors in this file all handle statements) leaves every
    expression as it is, and visits it with the scope stack of the statement
    it belongs to; only two kinds matter here. *)
Inductive expr : Type :=
| Constant (value : constant) (meta : metadata)
| Decoration (conf : BeartypeConf) (meta : metadata)
| OtherExpr (src : string) (meta : metadata).

Record arg : Type := Arg {
  arg_name : string;
  annotation : option expr
}.

Record arguments : Type := Arguments_ {
  posonlyargs : list arg;
  args : list arg;
  vararg : option arg;
  kwonlyargs : list arg;
  kwarg : option arg
}.

(** Statements.  [Stmt kind children] stands for every statement kind that
    this file has no visitor for ([If], [For], [Assign], [Return],
    [AsyncFunctionDef], ...): [children] are its nested statements in field
    order.  The visitors that the PEP 526 and PEP 695 mixins add for some of
    these kinds live in other files and are not part of this model. *)
#[local] Unset Elimination Schemes.

Inductive stmt : Type :=
| FunctionDef (name : string) (fargs : arguments) (body : list stmt)
              (decorator_list : list expr) (returns : option expr)
              (meta : metadata)
| ClassDef (name : string) (bases : list expr) (body : list stmt)
           (decorator_list : list expr) (meta : metadata)
| Expr (value : expr) (meta : metadata)
| ImportFrom (module : option string) (names : list string) (level : Z)
             (meta : metadata)
| Stmt (kind : string) (children : list stmt) (meta : metadata).

#[local] Set Elimination Schemes.

(** ** Induction over statements *)

Section StmtInd.

Variable P : stmt -> Prop.

Hypothesis P_FunctionDef :
  forall name fargs body decos returns meta,
    Forall P body -> P (FunctionDef name fargs body decos returns meta).
Hypothesis P_ClassDef :
  forall name bases body decos meta,
    Forall P body -> P (ClassDef name bases body decos meta).
Hypothesis P_Expr : forall value meta, P (Expr value meta).
Hypothesis P_ImportFrom :
  forall module names level meta, P (ImportFrom module names level meta).
Hypothesis P_Stmt :
  forall kind children meta, Forall P children -> P (Stmt kind children meta).

Fixpoint stmt_ind (node : stmt) : P node :=
  let all :=
    fix all (l : list stmt) : Forall P l :=
      match l with
      | [] => Forall_nil P
      | x :: rest => Forall_cons x (stmt_ind x) (all rest)
      end in
  match node with
  | FunctionDef name fargs body decos returns meta =>
      P_FunctionDef name fargs decos returns meta (all body)
  | ClassDef name bases body decos meta =>
      P_ClassDef name bases decos meta (all body)
  | Expr value meta => P_Expr value meta
  | ImportFrom module names level meta =>
      P_ImportFrom module names level meta
  | Stmt kind children meta => P_Stmt kind meta (all children)
  end.

End StmtInd.

Record Module_ : Type := Module { mod_body : list stmt }.

(** Any node that metadata can be copied from. *)
Inductive AST : Type :=
| AstModule (m : Module_)
| AstStmt (s : stmt).

(** [type(node)]. *)
Inductive node_type : Type :=
| TModule
| TClassDef
| TFunctionDef
| TExpr
| TImportFrom
| TStmt (kind : string).

Definition type_of (node : stmt) : node_type :=
  match node with
  | FunctionDef _ _ _ _ _ _ => TFunctionDef
  | ClassDef _ _ _ _ _ => TClassDef
  | Expr _ _ => TExpr
  | ImportFrom _ _ _ _ => TImportFrom
  | Stmt kind _ _ => TStmt kind
  end.

Definition node_type_eqb (a b : node_type) : bool :=
  match a, b with
  | TModule, TModule => true
  | TClassDef, TClassDef => true
  | TFunctionDef, TFunctionDef => true
  | TExpr, TExpr => true
  | TImportFrom, TImportFrom => true
  | TStmt k1, TStmt k2 => String.eqb k1 k2
  | _, _ => false
  end.

(** [node.name]; only [ClassDef] and [FunctionDef] nodes define it, and
    [generic_visit] reads it only for those. *)
Definition node_name (node : stmt) : string :=
  match node with
  | FunctionDef name _ _ _ _ _ => name
  | ClassDef name _ _ _ _ => name
  | _ => ""
  end.

Definition stmt_meta (node : stmt) : metadata :=
  match node with
  | FunctionDef _ _ _ _ _ meta => meta
  | ClassDef _ _ _ _ meta => meta
  | Expr _ meta => meta
  | ImportFrom _ _ _ meta => meta
  | Stmt _ _ meta => meta
  end.

(** Metadata of any node; a [Module] node has none. *)
Definition node_metadata (node : AST) : metadata :=
  match node with
  | AstModule _ => None
  | AstStmt s => stmt_meta s
  end.

(** ** The transformer's instance variables ([__slots__]) *)

Record BeartypeNodeTransformer : Type := Transformer {
  _conf_beartype : BeartypeConf;
  _module_name_beartype : string;
  _scope_name_beartype : string;
  _scope_stack_beartype : list node_type
}.

(** [__init__]. *)
Definition init (module_name_beartype : string) (conf_beartype : BeartypeConf)
  : BeartypeNodeTransformer :=
  {| _conf_beartype := conf_beartype;
     _module_name_beartype := module_name_beartype;
     _scope_name_beartype := module_name_beartype;
     _scope_stack_beartype := [] |}.

Definition set_scope_name (self : BeartypeNodeTransformer) (n : string) :=
  {| _conf_beartype := _conf_beartype self;
     _module_name_beartype := _module_name_beartype self;
     _scope_name_beartype := n;
     _scope_stack_beartype := _scope_stack_beartype self |}.

Definition set_scope_stack (self : BeartypeNodeTransformer)
  (st : list node_type) :=
  {| _conf_beartype := _conf_beartype self;
     _module_name_beartype := _module_name_beartype self;
     _scope_name_beartype := _scope_name_beartype self;
     _scope_stack_beartype := st |}.

(** ** Collaborators that live outside this file *)

(** Modelled from the spec: the constant [TYPES_NODE_LEXICAL_SCOPE] of
    [beartype._data.ast.dataast] is missing; a scope-introducing node is a
    class or function declaration (glossary), and [generic_visit] notes that
    both [ClassDef] and [FunctionDef] define [name]. *)
Definition TYPES_NODE_LEXICAL_SCOPE (t : node_type) : bool :=
  match t with
  | TClassDef | TFunctionDef => true
  | _ => false
  end.

(** Modelled from the spec: the property [_is_scope_class_beartype] of
    [BeartypeNodeTransformerUtilityMixin] is missing; it is true iff the top
    frame's kind is Class (4.1), the top being the last item of the stack
    (class docstring). *)
Definition _is_scope_class_beartype (self : BeartypeNodeTransformer) : bool :=
  match rev (_scope_stack_beartype self) with
  | top :: _ => node_type_eqb top TClassDef
  | [] => false
  end.

Definition is_annotated (a : arg) : bool :=
  match annotation a with Some _ => true | None => false end.

Definition is_annotated_opt (a : option arg) : bool :=
  match a with Some a => is_annotated a | None => false end.

(** Modelled from the spec: [is_node_callable_typed] of
    [beartype._util.ast.utilasttest] is missing; it returns true iff the node
    declares a return-type annotation or at least one parameter-type
    annotation (4.2). *)
Definition is_node_callable_typed (node : stmt) : bool :=
  match node with
  | FunctionDef _ fargs _ _ returns _ =>
      match returns with
      | Some _ => true
      | None =>
          existsb is_annotated (posonlyargs fargs)
          || existsb is_annotated (args fargs)
          || is_annotated_opt (vararg fargs)
          || existsb is_annotated (kwonlyargs fargs)
          || is_annotated_opt (kwarg fargs)
      end
  | _ => false
  end.

(** Modelled from the spec: [_decorate_node_beartype] of
    [BeartypeNodeTransformerUtilityMixin] is missing; it adds to the node one
    decoration entry referencing the instrumentation call and [conf], whose
    metadata is copied from the node (4.3).  Nodes without a decorator list
    are not decoratable. *)
Definition _decorate_node_beartype (node : stmt) (conf : BeartypeConf) : stmt :=
  match node with
  | FunctionDef name fargs body decos returns meta =>
      FunctionDef name fargs body (Decoration conf meta :: decos) returns meta
  | ClassDef name bases body decos meta =>
      ClassDef name bases body (Decoration conf meta :: decos) meta
  | _ => node
  end.

(** Modelled from the spec: [make_node_importfrom] of
    [beartype._util.ast.utilastmake] is missing; it synthesises one import
    statement whose metadata is copied from [node_sibling] (4.4 step 3). *)
Definition make_node_importfrom (module_name source_attr_name : string)
  (node_sibling : AST) : stmt :=
  ImportFrom (Some module_name) [source_attr_name] 0
             (node_metadata node_sibling).

(** The state in which the children of a scope node are visited. *)
Definition entered (self : BeartypeNodeTransformer) (t : node_type)
  (name : string) : BeartypeNodeTransformer :=
  set_scope_stack
    (set_scope_name self (_scope_name_beartype self ++ "." ++ name)%string)
    (_scope_stack_beartype self ++ [t]).

(** ** Ghost trace of the traversal *)

(** What the traversal does, in order: [EvVisit node stack name] when
    [visit] is called on [node] with the scope stack and scope name it then
    finds; [EvPush] and [EvPop] for [_scope_stack_beartype.append] and
    [.pop]. *)
Inductive event : Type :=
| EvVisit (node : stmt) (scope_stack : list node_type) (scope_name : string)
| EvPush (t : node_type)
| EvPop.

Definition result : Type :=
  (stmt * BeartypeNodeTransformer * list event)%type.

(** ** The visitors *)

Section Visitors.

(** [self.visit], the dispatcher of [ast.NodeVisitor]. *)
Variable visit : stmt -> BeartypeNodeTransformer -> result.

(** The list branch of [ast.NodeTransformer.generic_visit]: every item is
    visited in order; every visitor of this file returns a node, which
    replaces the item. *)
Fixpoint visit_list (l : list stmt) (self : BeartypeNodeTransformer)
  : list stmt * BeartypeNodeTransformer * list event :=
  match l with
  | [] => ([], self, [])
  | x :: rest =>
      let '(x', self1, tr1) := visit x self in
      let '(rest', self2, tr2) := visit_list rest self1 in
      (x' :: rest', self2, tr1 ++ tr2)
  end.

(** [super().generic_visit(node)], i.e. [ast.NodeTransformer.generic_visit]. *)
Definition NodeTransformer_generic_visit (node : stmt)
  (self : BeartypeNodeTransformer) : result :=
  match node with
  | FunctionDef name fargs body decos returns meta =>
      let '(body', self', tr) := visit_list body self in
      (FunctionDef name fargs body' decos returns meta, self', tr)
  | ClassDef name bases body decos meta =>
      let '(body', self', tr) := visit_list body self in
      (ClassDef name bases body' decos meta, self', tr)
  | Stmt kind children meta =>
      let '(children', self', tr) := visit_list children self in
      (Stmt kind children' meta, self', tr)
  | Expr _ _ | ImportFrom _ _ _ _ => (node, self, [])
  end.

(** [BeartypeNodeTransformer.generic_visit]. *)
Definition generic_visit (node : stmt) (self : BeartypeNodeTransformer)
  : result :=
  let node_type := type_of node in
  if TYPES_NODE_LEXICAL_SCOPE node_type then
    let scope_name_old := _scope_name_beartype self in
    let self :=
      set_scope_name self
        (_scope_name_beartype self ++ "." ++ node_name node)%string in
    let self :=
      set_scope_stack self (_scope_stack_beartype self ++ [node_type]) in
    let '(node', self, tr) := NodeTransformer_generic_visit node self in
    let self := set_scope_name self scope_name_old in
    let self :=
      set_scope_stack self (removelast (_scope_stack_beartype self)) in
    (node', self, EvPush node_type :: tr ++ [EvPop])
  else
    NodeTransformer_generic_visit node self.

(** [visit_ClassDef]. *)
Definition visit_ClassDef (node : stmt) (self : BeartypeNodeTransformer)
  : result :=
  let node := _decorate_node_beartype node (_conf_beartype self) in
  generic_visit node self.

(** [visit_FunctionDef].  The source decorates [node] in place under the
    condition and then calls [generic_visit] once; the call is written in
    both branches here ([visit_FunctionDef_unfold] below states the
    one-call form). *)
Definition visit_FunctionDef (node : stmt) (self : BeartypeNodeTransformer)
  : result :=
  if negb (_is_scope_class_beartype self) && is_node_callable_typed node
  then generic_visit (_decorate_node_beartype node (_conf_beartype self)) self
  else generic_visit node self.

End Visitors.

(** [NodeVisitor.visit]: dispatch on the node's class name to the visitors
    that this file defines; every other kind of node goes to [generic_visit].
    The class also inherits the visitors of its PEP 526 and PEP 695 mixins
    (for annotated assignments and type aliases), which live in other files
    and may return several statements for one.  They are not modelled: what
    is proved below of [Stmt] nodes is proved of the kinds that no mixin
    visits, and the places of nodes in a returned tree are those of a run
    that meets no statement of a mixin's kind.  An [AsyncFunctionDef] has no
    visitor of its own in this file and goes to [generic_visit]. *)
Fixpoint visit (node : stmt) (self : BeartypeNodeTransformer) {struct node}
  : result :=
  let '(node', self', tr) :=
    match node with
    | ClassDef name bases body decos meta =>
        visit_ClassDef visit (ClassDef name bases body decos meta) self
    | FunctionDef name fargs body decos returns meta =>
        visit_FunctionDef visit
          (FunctionDef name fargs body decos returns meta) self
    | _ => generic_visit visit node self
    end in
  (node',
   self',
   EvVisit node (_scope_stack_beartype self) (_scope_name_beartype self) :: tr).

(** *** [visit_Module] *)

(** The test of the loop of [visit_Module]: the child is an expression
    statement whose value is a constant (a module docstring), or an
    [ImportFrom] whose module is [__future__]. *)
Definition is_docstring_or_future (node_prev : stmt) : bool :=
  match node_prev with
  | Expr (Constant _ _) _ => true
  | ImportFrom (Some m) _ _ _ => String.eqb m "__future__"
  | _ => false
  end.

(** The [for node_prev in node.body] loop: it returns the final values of
    [node_index_import_beartype_attrs] and of the loop variable [node_prev]
    (which keeps its initial value when the body is empty, and is the child
    at which the loop breaks otherwise). *)
Fixpoint visit_Module_loop (body : list stmt)
  (node_index_import_beartype_attrs : nat) (node_prev : AST) : nat * AST :=
  match body with
  | [] => (node_index_import_beartype_attrs, node_prev)
  | child :: rest =>
      if negb (is_docstring_or_future child)
      then (node_index_import_beartype_attrs, AstStmt child)
      else visit_Module_loop rest (S node_index_import_beartype_attrs)
                             (AstStmt child)
  end.

(** [l[i:0] = (x,)]: the slice [i:0] is empty and starts at [min i (len l)]. *)
Definition slice_insert (l : list stmt) (i : nat) (x : stmt) : list stmt :=
  firstn i l ++ [x] ++ skipn i l.

(** The first half of [visit_Module], up to the insertion of the import. *)
Definition visit_Module_import (node : Module_) : Module_ :=
  let node_index_last := List.length (mod_body node) in
  let '(node_index_import_beartype_attrs, node_prev) :=
    visit_Module_loop (mod_body node) 0 (AstModule node) in
  if negb (node_index_import_beartype_attrs =? node_index_last)%nat then
    let node_import_all :=
      make_node_importfrom "beartype.claw._ast._clawaststar" "*" node_prev in
    Module (slice_insert (mod_body node) node_index_import_beartype_attrs
                         node_import_all)
  else node.

(** [generic_visit] on a module node: [Module] is no lexical scope, so this
    is [super().generic_visit(node)]. *)
Definition generic_visit_Module (node : Module_)
  (self : BeartypeNodeTransformer)
  : Module_ * BeartypeNodeTransformer * list event :=
  let '(body', self', tr) := visit_list visit (mod_body node) self in
  (Module body', self', tr).

Definition visit_Module (node : Module_) (self : BeartypeNodeTransformer)
  : Module_ * BeartypeNodeTransformer * list event :=
  generic_visit_Module (visit_Module_import node) self.

(** A whole run: a fresh transformer visits the module. *)
Definition run (module_name : string) (conf : BeartypeConf) (node : Module_)
  : Module_ * BeartypeNodeTransformer * list event :=
  visit_Module node (init module_name conf).

(** ** Notions the properties are stated with *)

(** The insertion index as the specification words it: past one leading
    docstring, then past the future imports that follow. *)
Definition is_docstring (s : stmt) : bool :=
  match s with
  | Expr (Constant (ConstStr _) _) _ => true
  | _ => false
  end.

Definition is_future_import (s : stmt) : bool :=
  match s with
  | ImportFrom (Some m) _ _ _ => String.eqb m "__future__"
  | _ => false
  end.

Fixpoint count_leading (p : stmt -> bool) (l : list stmt) : nat :=
  match l with
  | x :: rest => if p x then S (count_leading p rest) else 0
  | [] => 0
  end.

Definition spec_cursor (body : list stmt) : nat :=
  match body with
  | first :: rest =>
      if is_docstring first then S (count_leading is_future_import rest)
      else count_leading is_future_import body
  | [] => 0
  end.

(** The index computed by the code. *)
Definition cursor (node : Module_) : nat :=
  fst (visit_Module_loop (mod_body node) 0 (AstModule node)).

(** The preamble import statement, whatever its metadata. *)
Definition is_preamble (s : stmt) : bool :=
  match s with
  | ImportFrom (Some m) ["*"] 0%Z _ =>
      String.eqb m "beartype.claw._ast._clawaststar"
  | _ => false
  end.

Definition count_preamble (l : list stmt) : nat :=
  List.length (filter is_preamble l).

(** The import statement that [visit_Module] makes next to [sibling]. *)
Definition preamble_from (sibling : AST) : stmt :=
  make_node_importfrom "beartype.claw._ast._clawaststar" "*" sibling.

(** Decoration references in a decorator list. *)
Definition is_decoration (e : expr) : bool :=
  match e with
  | Decoration _ _ => true
  | _ => false
  end.

Definition count_decorations (l : list expr) : nat :=
  List.length (filter is_decoration l).

Definition decorators (node : stmt) : list expr :=
  match node with
  | FunctionDef _ _ _ decos _ _ => decos
  | ClassDef _ _ _ decos _ => decos
  | _ => []
  end.

Definition children_of (node : stmt) : list stmt :=
  match node with
  | FunctionDef _ _ body _ _ _ => body
  | ClassDef _ _ body _ _ => body
  | Stmt _ children _ => children
  | _ => []
  end.

(** The node reached from [node] by the path [p]: each index picks a
    child. *)
Fixpoint subnode (p : list nat) (node : stmt) : option stmt :=
  match p with
  | [] => Some node
  | i :: q =>
      match nth_error (children_of node) i with
      | Some child => subnode q child
      | None => None
      end
  end.

(** The scope as the scope stack gives it.  Whether the top frame is a class
    frame while the children of [node] are visited, when it is iff [in_class]
    while [node] is: only [ClassDef] and [FunctionDef] nodes open a frame;
    every other statement, an asynchronous function definition included,
    hands the frame of its parent down. *)
Definition child_in_class (in_class : bool) (node : stmt) : bool :=
  match node with
  | ClassDef _ _ _ _ _ => true
  | FunctionDef _ _ _ _ _ _ => false
  | _ => in_class
  end.

(** Whether the top frame is a class frame when the node at the end of the
    path is visited: whether the innermost [ClassDef] or [FunctionDef] node
    around it is a [ClassDef].  This is the scope that the transformer
    tracks; [scopes_around] below gives the scopes of the language. *)
Fixpoint in_class_at (p : list nat) (in_class : bool) (node : stmt) : bool :=
  match p with
  | [] => in_class
  | i :: q =>
      match nth_error (children_of node) i with
      | Some child => in_class_at q (child_in_class in_class node) child
      | None => in_class
      end
  end.

(** The same from a module node; the empty path reaches no statement. *)
Definition module_subnode (p : list nat) (node : Module_) : option stmt :=
  match p with
  | [] => None
  | i :: q =>
      match nth_error (mod_body node) i with
      | Some child => subnode q child
      | None => None
      end
  end.

Definition module_in_class_at (p : list nat) (node : Module_) : bool :=
  match p with
  | [] => false
  | i :: q =>
      match nth_error (mod_body node) i with
      | Some child => in_class_at q false child
      | None => false
      end
  end.

(** Where the statements of a module are after the insertion of the import:
    those from the insertion index on move by one. *)
Definition moved_index (node : Module_) (i : nat) : nat :=
  if (cursor node =? List.length (mod_body node))%nat then i
  else if (i <? cursor node)%nat then i
  else S i.

Definition moved (node : Module_) (p : list nat) : list nat :=
  match p with
  | [] => []
  | i :: q => moved_index node i :: q
  end.

(** All parameters of a callable. *)
Definition opt_list (a : option arg) : list arg :=
  match a with Some a => [a] | None => [] end.

Definition parameters (fargs : arguments) : list arg :=
  posonlyargs fargs ++ args fargs ++ opt_list (vararg fargs)
  ++ kwonlyargs fargs ++ opt_list (kwarg fargs).

(** The node declares a return annotation or an annotation of a parameter. *)
Definition declares_annotation (fargs : arguments) (returns : option expr)
  : Prop :=
  returns <> None \/
  exists a, In a (parameters fargs) /\ annotation a <> None.

(** The node that a visit returns. *)
Definition visited_node (node : stmt) (self : BeartypeNodeTransformer) : stmt :=
  fst (fst (visit node self)).

(** The tree that a traversal produces when the scope is passed down instead
    of being kept in a stack: [in_class] says whether the node sits directly
    in a class scope. *)
Fixpoint transform (conf : BeartypeConf) (in_class : bool) (node : stmt)
  : stmt :=
  match node with
  | FunctionDef name fargs body decos returns meta =>
      FunctionDef name fargs (map (transform conf false) body)
        (if negb in_class && is_node_callable_typed node
         then Decoration conf meta :: decos else decos)
        returns meta
  | ClassDef name bases body decos meta =>
      ClassDef name bases (map (transform conf true) body)
               (Decoration conf meta :: decos) meta
  | Stmt kind children meta =>
      Stmt kind (map (transform conf in_class) children) meta
  | Expr _ _ | ImportFrom _ _ _ _ => node
  end.

(** The trace of a traversal, computed from the tree alone. *)
Fixpoint trace_of (stack : list node_type) (scope_name : string) (node : stmt)
  : list event :=
  EvVisit node stack scope_name ::
  match node with
  | FunctionDef name _ body _ _ _ =>
      EvPush TFunctionDef ::
      flat_map (trace_of (stack ++ [TFunctionDef])
                         (scope_name ++ "." ++ name)%string) body
      ++ [EvPop]
  | ClassDef name _ body _ _ =>
      EvPush TClassDef ::
      flat_map (trace_of (stack ++ [TClassDef])
                         (scope_name ++ "." ++ name)%string) body
      ++ [EvPop]
  | Stmt _ children _ => flat_map (trace_of stack scope_name) children
  | Expr _ _ | ImportFrom _ _ _ _ => []
  end.

(** Scope frames: kind and local name of an open class or function scope. *)
Definition frame : Type := (node_type * string)%type.

(** Every node under [node] in pre-order, with the frames of the
    [ClassDef] and [FunctionDef] nodes that enclose it, outermost first.
    These are the frames that [generic_visit] opens; an asynchronous function
    definition opens none, though it is a scope of the language
    ([scopes_around]). *)
Fixpoint lexical_visits (frames : list frame) (node : stmt)
  : list (stmt * list frame) :=
  (node, frames) ::
  match node with
  | FunctionDef name _ body _ _ _ =>
      flat_map (lexical_visits (frames ++ [(TFunctionDef, name)])) body
  | ClassDef name _ body _ _ =>
      flat_map (lexical_visits (frames ++ [(TClassDef, name)])) body
  | Stmt _ children _ => flat_map (lexical_visits frames) children
  | Expr _ _ | ImportFrom _ _ _ _ => []
  end.

(** The fully-qualified name of the scope that [frames] lead to. *)
Definition qualified (module_name : string) (frames : list frame) : string :=
  fold_left (fun acc f => (acc ++ "." ++ snd f)%string) frames module_name.

(** The visits of a trace: node, stack and scope name found. *)
Fixpoint visits (tr : list event) : list (stmt * list node_type * string) :=
  match tr with
  | EvVisit node stack name :: rest => (node, stack, name) :: visits rest
  | _ :: rest => visits rest
  | [] => []
  end.

Definition is_push (e : event) : bool :=
  match e with EvPush _ => true | _ => false end.

Definition is_pop (e : event) : bool :=
  match e with EvPop => true | _ => false end.

(** Replay of a trace from a stack of depth [d]: no pop finds the stack
    empty, every visit finds a stack of the depth that the pushes and pops
    before it leave, and the depth in the end is [d_end]. *)
Fixpoint replay (d : nat) (tr : list event) (d_end : nat) : bool :=
  match tr with
  | EvPush _ :: rest => replay (S d) rest d_end
  | EvPop :: rest => (0 <? d)%nat && replay (pred d) rest d_end
  | EvVisit _ stack _ :: rest =>
      (List.length stack =? d)%nat && replay d rest d_end
  | [] => (d =? d_end)%nat
  end.

(** What a visit of a trace should be for a node under [frames]. *)
Definition visit_under (module_name : string) (v : stmt * list frame)
  : stmt * list node_type * string :=
  (fst v, map fst (snd v), qualified module_name (snd v)).

(** ** Sample trees *)

Definition at_line (n : Z) : metadata := Some (Position n 0 n 8).

Definition no_arguments : arguments := Arguments_ [] [] None [] None.

Definition pass_at (n : Z) : stmt := Stmt "Pass" [] (at_line n).

Definition docstring_at (n : Z) (text : string) : stmt :=
  Expr (Constant (ConstStr text) (at_line n)) (at_line n).

Definition future_import_at (n : Z) (name : string) : stmt :=
  ImportFrom (Some "__future__") [name] 0 (at_line n).

(** [def f(): pass] at line [n]. *)
Definition def_at (n : Z) (name : string) : stmt :=
  FunctionDef name no_arguments [pass_at (n + 1)] [] None (at_line n).

(** [def f(x) -> int: pass] at line [n]. *)
Definition typed_def_at (n : Z) (name : string) : stmt :=
  FunctionDef name (Arguments_ [] [Arg "x" None] None [] None)
              [pass_at (n + 1)] [] (Some (OtherExpr "int" (at_line n)))
              (at_line n).

(** A docstring, a second string statement, a function. *)
Definition two_strings_module : Module_ :=
  Module [docstring_at 1 "doc"; docstring_at 2 "more"; def_at 3 "f"].

(** A docstring, two future imports, a function. *)
Definition docstring_futures_def_module : Module_ :=
  Module [docstring_at 1 "doc"; future_import_at 2 "annotations";
          future_import_at 3 "division"; typed_def_at 4 "f"].

(** A docstring only. *)
Definition docstring_only_module : Module_ := Module [docstring_at 1 "doc"].

(** A function only. *)
Definition def_only_module : Module_ := Module [def_at 1 "f"].

(** [class A: def f(self): class B: def g(self) -> int: pass]. *)
Definition nested_scopes : stmt :=
  ClassDef "A" []
    [FunctionDef "f" (Arguments_ [] [Arg "self" None] None [] None)
       [ClassDef "B" []
          [FunctionDef "g" (Arguments_ [] [Arg "self" None] None [] None)
             [pass_at 4] [] (Some (OtherExpr "int" (at_line 4))) (at_line 4)]
          [] (at_line 3)]
       [] None (at_line 2)]
    [] (at_line 1).

Definition sample_conf : BeartypeConf := Conf 139870142111616.

(** ** Further notions *)






(** [if ...: def f(x) -> int: pass], a function defined under a condition. *)
Definition conditional_def_at (n : Z) (name : string) : stmt :=
  Stmt "If" [typed_def_at (n + 1) name] (at_line n).

(** A class whose only method is defined under a condition. *)
Definition conditional_method_module : Module_ :=
  Module [ClassDef "A" [] [conditional_def_at 2 "f"] [] (at_line 1)].



(** A docstring and a second string statement, nothing else. *)
Definition two_strings_only_module : Module_ :=
  Module [docstring_at 1 "doc"; docstring_at 2 "more"].

(** The statement [42], nothing else: no docstring, no future import. *)
Definition number_only_module : Module_ :=
  Module [Expr (Constant (ConstInt 42) (at_line 1)) (at_line 1)].

End Claw.

(* ================================================================== *)
(** * Part II: [beartype._util.func.utilfunccode]                       *)
(* ================================================================== *)

Module FuncCode.

Local Open Scope string_scope.
Local Open Scope list_scope.
Local Open Scope Z_scope.

(** ** The world outside the module *)

(** The outcome of a call that may raise: its value, or the formatted
    traceback ([format_exc()]) of the exception raised. *)
Inductive exc (A : Type) : Type :=
| Ok (a : A)
| Raise (traceback : string).

Arguments Ok {A} a.
Arguments Raise {A} traceback.

(** The syntax tree of a file as [_LambdaNodeUnparser] sees it: lambda nodes
    with their [lineno], and all other nodes; [children] are the child nodes
    in field order. *)
#[local] Unset Elimination Schemes.

Inductive node : Type :=
| Lambda (lineno : Z) (code : string) (children : list node)
| Node (kind : string) (children : list node).

#[local] Set Elimination Schemes.

Section NodeInd.

Variable P : node -> Prop.

Hypothesis P_Lambda :
  forall lineno code children,
    Forall P children -> P (Lambda lineno code children).
Hypothesis P_Node :
  forall kind children, Forall P children -> P (Node kind children).

Fixpoint node_ind (n : node) : P n :=
  let all :=
    fix all (l : list node) : Forall P l :=
      match l with
      | [] => Forall_nil P
      | x :: rest => Forall_cons x (node_ind x) (all rest)
      end in
  match n with
  | Lambda lineno code children => P_Lambda lineno code (all children)
  | Node kind children => P_Node kind (all children)
  end.

End NodeInd.

(** A code object. *)
Record CodeType : Type := Code { co_firstlineno : Z }.

(** Type of warnings to emit. *)
Definition TypeWarning : Type := string.

(** A callable, by what this module asks about it: [is_func_lambda(func)],
    [is_func_file(func)], the lines returned by [inspect.findsource(func)],
    the text returned by [inspect.getsource(func)], [get_func_codeobj(func)]
    and [prefix_callable(func)]. *)
Record Callable : Type := Func {
  is_func_lambda : bool;
  is_func_file : bool;
  findsource : exc (list string);
  getsource : exc string;
  get_func_codeobj : exc CodeType;
  prefix_callable : string
}.

(** The standard library: [ast.parse] and [ast.unparse], both of which may
    raise. *)
Record Stdlib_ast : Type := Ast {
  ast_parse : string -> exc node;
  ast_unparse : node -> exc string
}.

(** What a call does besides returning: the warnings it emits and the texts
    it hands to [ast.parse], in order. *)
Inductive effect : Type :=
| Warn (message : string) (category : TypeWarning)
| AstParse (source : string).

(** ** Builtins *)

Definition nl : string := String (ascii_of_nat 10) EmptyString.

Fixpoint len_from (s : string) (acc : Z) : Z :=
  match s with
  | EmptyString => acc
  | String _ rest => len_from rest (acc + 1)
  end.

(** [len] of a string. *)
Definition len (s : string) : Z := len_from s 0.

(** [str(n)] for an integer. *)
Definition str (n : Z) : string :=
  match n with
  | Z0 => "0"
  | Zpos p => NilEmpty.string_of_uint (Pos.to_uint p)
  | Zneg p => "-" ++ NilEmpty.string_of_uint (Pos.to_uint p)
  end%string.

(** [sep.join(l)]. *)
Definition join (sep : string) (l : list string) : string :=
  String.concat sep l.

Definition _LAMBDA_CODE_FILESIZE_MAX : Z := 1000000.

(** ** The messages of the warnings *)

Definition msg_not_parsable (func : Callable) (format_exc : string) : string :=
  (prefix_callable func ++ "not parsable:" ++ nl ++ format_exc)%string.

Definition msg_file_size (func : Callable) : string :=
  (prefix_callable func ++ "not parsable, "
   ++ "as file size exceeds safe maximum "
   ++ str _LAMBDA_CODE_FILESIZE_MAX ++ "MB.")%string.

Definition msg_ambiguous (func : Callable) (lambdas_code : list string)
  : string :=
  let lambdas_code_str := join (nl ++ "    ")%string lambdas_code in
  (prefix_callable func ++ "ambiguous, "
   ++ "as that line defines "
   ++ str (Z.of_nat (List.length lambdas_code)) ++ " lambdas; "
   ++ "arbitrarily selecting first "
   ++ "lambda:" ++ nl ++ lambdas_code_str)%string.

Definition msg_not_found (func : Callable) : string :=
  (prefix_callable func ++ "not found.")%string.

(** ** [get_func_code_lines_or_none] *)

Definition get_func_code_lines_or_none (func : Callable)
  (warning_cls : TypeWarning) : option string * list effect :=
  if is_func_file func then
    match getsource func with
    | Ok code => (Some code, [])
    | Raise format_exc =>
        (None, [Warn (msg_not_parsable func format_exc) warning_cls])
    end
  else (None, []).

(** ** [get_func_file_code_lines_or_none] *)

Definition get_func_file_code_lines_or_none (func : Callable)
  (warning_cls : TypeWarning) : option string * list effect :=
  if is_func_file func then
    match findsource func with
    | Ok func_file_code_lines => (Some (join "" func_file_code_lines), [])
    | Raise format_exc =>
        (None, [Warn (msg_not_parsable func format_exc) warning_cls])
    end
  else (None, []).

(** ** [_LambdaNodeUnparser] *)


Section LambdaNodeUnparser.

Variable stdlib : Stdlib_ast.

(** [self._lambda_lineno]. *)
Variable _lambda_lineno : Z.

Section Visitors.

(** [self.visit], the dispatcher of [ast.NodeVisitor].  The state is
    [self.lambdas_code]; an exception ends the visit. *)
Variable visit : node -> list string -> exc (list string).

Fixpoint visit_each (children : list node) (lambdas_code : list string)
  : exc (list string) :=
  match children with
  | [] => Ok lambdas_code
  | child :: rest =>
      match visit child lambdas_code with
      | Ok lambdas_code' => visit_each rest lambdas_code'
      | Raise e => Raise e
      end
  end.

(** [ast.NodeVisitor.generic_visit]: visit every child node. *)
Definition generic_visit (n : node) (lambdas_code : list string)
  : exc (list string) :=
  match n with
  | Lambda _ _ children => visit_each children lambdas_code
  | Node _ children => visit_each children lambdas_code
  end.

(** [visit_Lambda]; it is called on lambda nodes only. *)
Definition visit_Lambda (n : node) (lambdas_code : list string)
  : exc (list string) :=
  match n with
  | Lambda lineno _ _ =>
      if lineno =? _lambda_lineno then
        match ast_unparse stdlib n with
        | Ok code => generic_visit n (lambdas_code ++ [code])
        | Raise e => Raise e
        end
      else if lineno <? _lambda_lineno then
        generic_visit n lambdas_code
      else Ok lambdas_code
  | Node _ _ => generic_visit n lambdas_code
  end.

End Visitors.

(** [NodeVisitor.visit]: dispatch on the node's class name. *)
Fixpoint visit (n : node) (lambdas_code : list string) {struct n}
  : exc (list string) :=
  match n with
  | Lambda _ _ _ => visit_Lambda visit n lambdas_code
  | Node _ _ => generic_visit visit n lambdas_code
  end.

End LambdaNodeUnparser.

(** [_LambdaNodeUnparser(lambda_lineno=...)] followed by [.visit(ast_tree)]
    and the read of [.lambdas_code]; [__init__] asserts that the line number
    is not negative. *)
Definition unparse_lambdas (stdlib : Stdlib_ast) (lambda_lineno : Z)
  (ast_tree : node) : exc (list string) :=
  if lambda_lineno >=? 0 then visit stdlib lambda_lineno ast_tree []
  else Raise (str lambda_lineno ++ " < 0.")%string.

(** ** [get_func_code_or_none] *)

(** The body of the [try] statement: [Ok (Some code)] when it returns
    [code], [Ok None] when it ends without returning, [Raise] when an
    exception leaves it; with the effects up to that point. *)
Definition get_func_code_or_none_try (stdlib : Stdlib_ast) (func : Callable)
  (warning_cls : TypeWarning) : exc (option string) * list effect :=
  let '(lambda_file_code, eff) :=
    get_func_file_code_lines_or_none func warning_cls in
  match lambda_file_code with
  | None | Some EmptyString => (Ok None, eff)
  | Some lambda_file_code =>
      match get_func_codeobj func with
      | Raise e => (Raise e, eff)
      | Ok func_codeobj =>
          if len lambda_file_code >=? _LAMBDA_CODE_FILESIZE_MAX then
            (Ok None, eff ++ [Warn (msg_file_size func) warning_cls])
          else
            let eff := eff ++ [AstParse lambda_file_code] in
            match ast_parse stdlib lambda_file_code with
            | Raise e => (Raise e, eff)
            | Ok ast_tree =>
                match unparse_lambdas stdlib (co_firstlineno func_codeobj)
                                      ast_tree with
                | Raise e => (Raise e, eff)
                | Ok [] =>
                    (Ok None, eff ++ [Warn (msg_not_found func) warning_cls])
                | Ok ((first :: others) as lambdas_code) =>
                    if Z.of_nat (List.length lambdas_code) >=? 2 then
                      (Ok (Some first),
                       eff ++
                       [Warn (msg_ambiguous func lambdas_code) warning_cls])
                    else (Ok (Some first), eff)
                end
            end
      end
  end.

(** [get_func_code_or_none]; [IS_PYTHON_AT_LEAST_3_9] chooses between the two
    definitions of the source. *)
Definition get_func_code_or_none (IS_PYTHON_AT_LEAST_3_9 : bool)
  (stdlib : Stdlib_ast) (func : Callable) (warning_cls : TypeWarning)
  : option string * list effect :=
  if IS_PYTHON_AT_LEAST_3_9 then
    let '(returned, eff) :=
      if is_func_lambda func then
        match get_func_code_or_none_try stdlib func warning_cls with
        | (Ok returned, eff) => (returned, eff)
        | (Raise format_exc, eff) =>
            (None, eff ++ [Warn (msg_not_parsable func format_exc) warning_cls])
        end
      else (None, []) in
    match returned with
    | Some code => (Some code, eff)
    | None =>
        let '(code, eff') := get_func_code_lines_or_none func warning_cls in
        (code, eff ++ eff')
    end
  else get_func_code_lines_or_none func warning_cls.

(** ** Notions the properties are stated with *)

Definition starts_on (line : Z) (n : node) : bool :=
  match n with
  | Lambda lineno _ _ => lineno =? line
  | Node _ _ => false
  end.

(** The nodes that the unparser visits, in the order it visits them: the
    tree in pre-order, without what lies under a lambda that starts after
    [line]. *)
Fixpoint visited (line : Z) (n : node) : list node :=
  n ::
  match n with
  | Lambda lineno _ children =>
      if lineno <=? line then flat_map (visited line) children else []
  | Node _ children => flat_map (visited line) children
  end.

(** The whole tree in pre-order. *)
Fixpoint preorder (n : node) : list node :=
  n ::
  match n with
  | Lambda _ _ children => flat_map preorder children
  | Node _ children => flat_map preorder children
  end.

(** A tree as a parser builds it: nothing under a lambda starts on an
    earlier line than that lambda. *)
Fixpoint lines_ordered (n : node) : bool :=
  match n with
  | Lambda lineno _ children =>
      forallb lines_ordered children
      && forallb (fun d => match d with
                           | Lambda l _ _ => lineno <=? l
                           | Node _ _ => true
                           end) (flat_map preorder children)
  | Node _ children => forallb lines_ordered children
  end.

(** [ast.unparse] on each node of a list, in order. *)
Fixpoint unparse_each (stdlib : Stdlib_ast) (l : list node)
  : exc (list string) :=
  match l with
  | [] => Ok []
  | n :: rest =>
      match ast_unparse stdlib n with
      | Ok code =>
          match unparse_each stdlib rest with
          | Ok codes => Ok (code :: codes)
          | Raise e => Raise e
          end
      | Raise e => Raise e
      end
  end.

(** What the unparser adds to [lambdas_code]: the code of every lambda it
    meets on the line, in the order it meets them; it raises what
    [ast.unparse] first raises. *)
Definition after_unparsing (stdlib : Stdlib_ast) (l : list node)
  (lambdas_code : list string) : exc (list string) :=
  match unparse_each stdlib l with
  | Ok codes => Ok (lambdas_code ++ codes)
  | Raise e => Raise e
  end.

Definition is_parse (e : effect) : bool :=
  match e with AstParse _ => true | Warn _ _ => false end.

(** The lambdas on [line] that the unparser meets in [ast_tree], in order. *)
Definition lambdas_on (line : Z) (ast_tree : node) : list node :=
  filter (starts_on line) (visited line ast_tree).

(** ** Sample callables *)

(** [f = lambda: 'and black,', lambda: 'and pale,'], parsed. *)
Definition first_lambda : node :=
  Lambda 1 "lambda: 'and black,'" [Node "Constant" []].

Definition second_lambda : node :=
  Lambda 1 "lambda: 'and pale,'" [Node "Constant" []].

Definition two_lambdas_tree : node :=
  Node "Module"
    [Node "Assign"
       [Node "Name" []; Node "Tuple" [first_lambda; second_lambda]]].

Definition two_lambdas_line : string :=
  "f = lambda: 'and black,', lambda: 'and pale,'" ++ nl.

(** A standard library that reads both sample files right. *)
Definition sample_stdlib : Stdlib_ast :=
  {| ast_parse := fun _ => Ok two_lambdas_tree;
     ast_unparse := fun n =>
       match n with
       | Lambda _ code _ => Ok code
       | Node kind _ => Ok kind
       end |}.

(** The first lambda of a file that holds the line above only. *)
Definition small_func : Callable :=
  {| is_func_lambda := true;
     is_func_file := true;
     findsource := Ok [two_lambdas_line];
     getsource := Ok two_lambdas_line;
     get_func_codeobj := Ok (Code 1);
     prefix_callable := "<lambda>() " |}.

Fixpoint doubled (k : nat) (s : string) : string :=
  match k with
  | O => s
  | S k' => doubled k' (s ++ s)
  end.

(** A comment line of 1048577 characters. *)
Definition long_comment : string := doubled 20 "#" ++ nl.

(** The first lambda of a file that holds the line above and then the long
    comment. *)
Definition big_func : Callable :=
  {| is_func_lambda := true;
     is_func_file := true;
     findsource := Ok [two_lambdas_line; long_comment];
     getsource := Ok two_lambdas_line;
     get_func_codeobj := Ok (Code 1);
     prefix_callable := "<lambda>() " |}.

Definition sample_warning : TypeWarning := "_BeartypeUtilCallableWarning".

(** ** Further notions *)

Definition is_warning (e : effect) : bool :=
  match e with Warn _ _ => true | AstParse _ => false end.

(** The result of the getter when the lambda branch returns nothing. *)
Definition fell_back (func : Callable) (cls : TypeWarning)
  (eff : list effect) : option string * list effect :=
  (fst (get_func_code_lines_or_none func cls),
   eff ++ snd (get_func_code_lines_or_none func cls)).

(** [f = lambda: 'and black,'], parsed. *)
Definition one_lambda_tree : node :=
  Node "Module" [Node "Assign" [Node "Name" []; first_lambda]].

(** [x = 1], parsed: no lambda. *)
Definition no_lambda_tree : node :=
  Node "Module" [Node "Assign" [Node "Name" []; Node "Constant" []]].

Definition unparse_sample (n : node) : exc string :=
  match n with
  | Lambda _ code _ => Ok code
  | Node kind _ => Ok kind
  end.

(** Standard libraries that parse every text to one of the trees above, and
    two that fail. *)
Definition one_lambda_stdlib : Stdlib_ast :=
  {| ast_parse := fun _ => Ok one_lambda_tree; ast_unparse := unparse_sample |}.

Definition no_lambda_stdlib : Stdlib_ast :=
  {| ast_parse := fun _ => Ok no_lambda_tree; ast_unparse := unparse_sample |}.

Definition parse_failing_stdlib : Stdlib_ast :=
  {| ast_parse := fun _ => Raise "SyntaxError: invalid syntax";
     ast_unparse := unparse_sample |}.

Definition unparse_failing_stdlib : Stdlib_ast :=
  {| ast_parse := fun _ => Ok two_lambdas_tree;
     ast_unparse := fun n =>
       match n with
       | Lambda _ "lambda: 'and pale,'" _ =>
           Raise "RecursionError: maximum recursion depth exceeded"
       | _ => unparse_sample n
       end |}.

(** A lambda made by [eval]: no file. *)
Definition in_memory_func : Callable :=
  {| is_func_lambda := true;
     is_func_file := false;
     findsource := Raise "OSError: could not get source code";
     getsource := Raise "OSError: could not get source code";
     get_func_codeobj := Ok (Code 1);
     prefix_callable := "<lambda>() " |}.

(** A tree with a lambda of line 2 under a lambda of line 3, as no parser
    builds it. *)
Definition disordered_tree : node :=
  Node "Module" [Lambda 3 "lambda: (lambda: 0)" [Lambda 2 "lambda: 0" []]].

End FuncCode.

(* ================================================================== *)
(** * Part III: properties of the transformer                          *)
(* ================================================================== *)

Module ClawFacts.

Import Claw.

Local Open Scope string_scope.
Local Open Scope list_scope.

(** ** The state of the transformer *)

Lemma transformer_eta (self : BeartypeNodeTransformer) :
  {| _conf_beartype := _conf_beartype self;
     _module_name_beartype := _module_name_beartype self;
     _scope_name_beartype := _scope_name_beartype self;
     _scope_stack_beartype := _scope_stack_beartype self |} = self.
Proof. destruct self; reflexivity. Qed.

Lemma left_entered (self : BeartypeNodeTransformer) t name :
  set_scope_stack
    (set_scope_name (entered self t name) (_scope_name_beartype self))
    (removelast
       (_scope_stack_beartype
          (set_scope_name (entered self t name) (_scope_name_beartype self))))
  = self.
Proof.
  unfold entered, set_scope_stack, set_scope_name; simpl.
  rewrite removelast_last. apply transformer_eta.
Qed.

Lemma is_scope_class_entered (self : BeartypeNodeTransformer) t name :
  _is_scope_class_beartype (entered self t name) = node_type_eqb t TClassDef.
Proof.
  unfold _is_scope_class_beartype, entered; simpl.
  rewrite rev_app_distr. reflexivity.
Qed.

Lemma conf_entered (self : BeartypeNodeTransformer) t name :
  _conf_beartype (entered self t name) = _conf_beartype self.
Proof. reflexivity. Qed.

(** ** The traversal, as a function of the tree *)

Lemma visit_list_spec (l : list stmt) :
  Forall (fun node => forall self,
            visit node self =
            (transform (_conf_beartype self) (_is_scope_class_beartype self)
                       node,
             self,
             trace_of (_scope_stack_beartype self)
                      (_scope_name_beartype self) node)) l ->
  forall self,
    visit_list visit l self =
    (map (transform (_conf_beartype self) (_is_scope_class_beartype self)) l,
     self,
     flat_map (trace_of (_scope_stack_beartype self)
                        (_scope_name_beartype self)) l).
Proof.
  induction 1 as [|x rest Hx _ IH]; intros self; simpl.
  - reflexivity.
  - rewrite Hx, IH. reflexivity.
Qed.

Lemma generic_visit_scope (node : stmt) (self : BeartypeNodeTransformer) :
  TYPES_NODE_LEXICAL_SCOPE (type_of node) = true ->
  generic_visit visit node self =
  let '(node', self', tr) :=
    NodeTransformer_generic_visit visit node
      (entered self (type_of node) (node_name node)) in
  (node',
   set_scope_stack
     (set_scope_name self' (_scope_name_beartype self))
     (removelast
        (_scope_stack_beartype
           (set_scope_name self' (_scope_name_beartype self)))),
   EvPush (type_of node) :: tr ++ [EvPop]).
Proof.
  intros H. unfold generic_visit. rewrite H. reflexivity.
Qed.

Theorem visit_spec (node : stmt) :
  forall self,
    visit node self =
    (transform (_conf_beartype self) (_is_scope_class_beartype self) node,
     self,
     trace_of (_scope_stack_beartype self) (_scope_name_beartype self) node).
Proof.
  induction node as [name fargs body decos returns meta IH
                    |name bases body decos meta IH
                    |value meta
                    |module names level meta
                    |kind children meta IH] using stmt_ind; intros self.
  - (* FunctionDef *)
    pose proof (visit_list_spec IH) as Hl.
    cbn [visit]. unfold visit_FunctionDef.
    destruct (negb (_is_scope_class_beartype self)
              && is_node_callable_typed
                   (FunctionDef name fargs body decos returns meta)) eqn:Hc;
      cbn [_decorate_node_beartype];
      rewrite generic_visit_scope by reflexivity;
      cbn [NodeTransformer_generic_visit type_of node_name];
      rewrite Hl, is_scope_class_entered, conf_entered, left_entered;
      cbn [transform trace_of node_type_eqb]; rewrite Hc; reflexivity.
  - (* ClassDef *)
    pose proof (visit_list_spec IH) as Hl.
    cbn [visit]. unfold visit_ClassDef. cbn [_decorate_node_beartype].
    rewrite generic_visit_scope by reflexivity.
    cbn [NodeTransformer_generic_visit type_of node_name].
    rewrite Hl, is_scope_class_entered, conf_entered, left_entered.
    reflexivity.
  - reflexivity.
  - reflexivity.
  - (* Stmt *)
    pose proof (visit_list_spec IH) as Hl.
    cbn [visit]. unfold generic_visit.
    cbn [type_of TYPES_NODE_LEXICAL_SCOPE NodeTransformer_generic_visit].
    rewrite Hl. reflexivity.
Qed.

Corollary visited_node_spec (node : stmt) (self : BeartypeNodeTransformer) :
  visited_node node self =
  transform (_conf_beartype self) (_is_scope_class_beartype self) node.
Proof. unfold visited_node. rewrite visit_spec. reflexivity. Qed.

(** A visit leaves the transformer as it found it. *)
Corollary visit_restores (node : stmt) (self : BeartypeNodeTransformer) :
  snd (fst (visit node self)) = self.
Proof. rewrite visit_spec. reflexivity. Qed.

(** ** Decoration of callables and classes *)

Lemma existsb_annotated (l : list arg) :
  existsb is_annotated l = true <->
  exists a, In a l /\ annotation a <> None.
Proof.
  rewrite existsb_exists. unfold is_annotated.
  split; intros [a [Hin Ha]]; exists a; split; auto;
    destruct (annotation a); congruence.
Qed.

Lemma annotated_opt (o : option arg) :
  is_annotated_opt o = true <->
  exists a, In a (opt_list o) /\ annotation a <> None.
Proof.
  destruct o as [a|]; simpl.
  - unfold is_annotated. split.
    + intros H. exists a. split; auto. destruct (annotation a); congruence.
    + intros [b [[<-|[]] Hb]]. destruct (annotation a); congruence.
  - split; [discriminate | intros [a [[] _]]].
Qed.

Lemma is_node_callable_typed_iff name fargs body decos returns meta :
  is_node_callable_typed (FunctionDef name fargs body decos returns meta)
  = true <-> declares_annotation fargs returns.
Proof.
  unfold declares_annotation, parameters. simpl.
  destruct returns as [r|].
  - split; auto. intros _. left. discriminate.
  - rewrite !orb_true_iff, !existsb_annotated, !annotated_opt. split.
    + intros H. right.
      destruct H as [[[[[a [Hin Ha]]|[a [Hin Ha]]]|[a [Hin Ha]]]
                       |[a [Hin Ha]]]|[a [Hin Ha]]];
        exists a; (split; [|exact Ha]); rewrite !in_app_iff; tauto.
    + intros [H|[a [Hin Ha]]]; [congruence|].
      rewrite !in_app_iff in Hin.
      destruct Hin as [Hin|[Hin|[Hin|[Hin|Hin]]]]; eauto 10.
Qed.

(** In class scope, [visit_FunctionDef] leaves the decorators of the node. *)
Lemma visit_FunctionDef_in_class self name fargs body decos returns meta :
  _is_scope_class_beartype self = true ->
  decorators
    (visited_node (FunctionDef name fargs body decos returns meta) self)
  = decos.
Proof.
  intros H. rewrite visited_node_spec. simpl. rewrite H. reflexivity.
Qed.

(** Whenever a class definition node is visited, in whatever state of the
    transformer, the node returned has, at the index of each function defined
    directly in the class body, that function with the decorator list it
    had. *)
Lemma class_body_functions_undecorated
  (self : BeartypeNodeTransformer) cname bases body decos meta
  (i : nat) fname fargs fbody fdecos freturns fmeta :
  nth_error body i
  = Some (FunctionDef fname fargs fbody fdecos freturns fmeta) ->
  exists body' fbody',
    visited_node (ClassDef cname bases body decos meta) self
    = ClassDef cname bases body'
               (Decoration (_conf_beartype self) meta :: decos) meta
    /\ List.length body' = List.length body
    /\ nth_error body' i
       = Some (FunctionDef fname fargs fbody' fdecos freturns fmeta).
Proof.
  intros Hi. rewrite visited_node_spec. cbn [transform].
  eexists. eexists. split; [reflexivity|]. split.
  - apply length_map.
  - rewrite nth_error_map, Hi. reflexivity.
Qed.

(** Whenever a class definition node is visited, in whatever state of the
    transformer and whatever its members, the node returned is the class with
    one more decorator, a decoration reference. *)
Lemma class_decorated
  (self : BeartypeNodeTransformer) name bases body decos meta :
  exists body',
    visited_node (ClassDef name bases body decos meta) self
    = ClassDef name bases body'
               (Decoration (_conf_beartype self) meta :: decos) meta
    /\ List.length body' = List.length body.
Proof.
  rewrite visited_node_spec. cbn [transform]. eexists.
  split; [reflexivity|apply length_map].
Qed.

(** Outside class scope, [visit_FunctionDef] decorates the typed callables
    and no others. *)
Lemma outside_class_decorators
  (self : BeartypeNodeTransformer) name fargs body decos returns meta :
  _is_scope_class_beartype self = false ->
  decorators
    (visited_node (FunctionDef name fargs body decos returns meta) self)
  = if is_node_callable_typed (FunctionDef name fargs body decos returns meta)
    then Decoration (_conf_beartype self) meta :: decos
    else decos.
Proof.
  intros Hs. rewrite visited_node_spec. cbn [transform decorators].
  rewrite Hs. reflexivity.
Qed.

Lemma cons_or_not (b : bool) (d : expr) (l : list expr) :
  ((if b then d :: l else l) = d :: l <-> b = true)
  /\ ((if b then d :: l else l) = l <-> b <> true).
Proof.
  assert (Hneq : d :: l <> l).
  { intros H. apply (f_equal (@List.length expr)) in H. simpl in H. lia. }
  destruct b; split; split; congruence.
Qed.

(** The one-call form of [visit_FunctionDef]. *)
Lemma visit_FunctionDef_unfold (node : stmt) (self : BeartypeNodeTransformer) :
  visit_FunctionDef visit node self =
  generic_visit visit
    (if negb (_is_scope_class_beartype self) && is_node_callable_typed node
     then _decorate_node_beartype node (_conf_beartype self)
     else node)
    self.
Proof.
  unfold visit_FunctionDef.
  destruct (negb (_is_scope_class_beartype self)
            && is_node_callable_typed node); reflexivity.
Qed.

(** Module-level statements are visited outside any class. *)
Lemma module_level_not_in_class module_name conf :
  _is_scope_class_beartype (init module_name conf) = false.
Proof. reflexivity. Qed.

(** So are the statements of the body of a function. *)
Lemma function_body_not_in_class self name :
  _is_scope_class_beartype (entered self TFunctionDef name) = false.
Proof. rewrite is_scope_class_entered. reflexivity. Qed.

(** A function directly in the body of a function is decorated iff typed. *)
Lemma nested_function_decorated_iff_typed
  (self : BeartypeNodeTransformer) oname oargs obody odecos oreturns ometa
  (i : nat) name fargs body decos returns meta :
  nth_error obody i = Some (FunctionDef name fargs body decos returns meta) ->
  exists inner,
    nth_error
      (children_of
         (visited_node (FunctionDef oname oargs obody odecos oreturns ometa)
                       self)) i
    = Some inner
    /\ (decorators inner = Decoration (_conf_beartype self) meta :: decos
        <-> declares_annotation fargs returns)
    /\ (decorators inner = decos <-> ~ declares_annotation fargs returns).
Proof.
  intros Hi. rewrite visited_node_spec. cbn [transform children_of].
  rewrite nth_error_map, Hi. cbn [option_map]. eexists. split; [reflexivity|].
  pose proof (@outside_class_decorators
                (entered self TFunctionDef oname) name fargs body decos
                returns meta (function_body_not_in_class self oname)) as H.
  rewrite visited_node_spec, function_body_not_in_class, conf_entered in H.
  rewrite H.
  rewrite <- (is_node_callable_typed_iff name fargs body decos returns meta).
  apply cons_or_not.
Qed.

(** Nested scopes: [A] and [B] are decorated, [f] and [g] are not, though
    [g] is typed. *)
Example nested_scopes_decorated :
  visited_node nested_scopes (init "m" sample_conf) =
  ClassDef "A" []
    [FunctionDef "f" (Arguments_ [] [Arg "self" None] None [] None)
       [ClassDef "B" []
          [FunctionDef "g" (Arguments_ [] [Arg "self" None] None [] None)
             [pass_at 4] [] (Some (OtherExpr "int" (at_line 4))) (at_line 4)]
          [Decoration sample_conf (at_line 3)] (at_line 3)]
       [] None (at_line 2)]
    [Decoration sample_conf (at_line 1)] (at_line 1).
Proof. reflexivity. Qed.

(** The scope stack and scope name found at each visit of the nested
    scopes. *)
Example nested_scopes_visits :
  map (fun v => (type_of (fst (fst v)), snd (fst v), snd v))
      (visits (snd (visit nested_scopes (init "m" sample_conf))))
  = [(TClassDef, [], "m");
     (TFunctionDef, [TClassDef], "m.A");
     (TClassDef, [TClassDef; TFunctionDef], "m.A.f");
     (TFunctionDef, [TClassDef; TFunctionDef; TClassDef], "m.A.f.B");
     (TStmt "Pass", [TClassDef; TFunctionDef; TClassDef; TFunctionDef],
      "m.A.f.B.g")].
Proof. reflexivity. Qed.

(** A function without annotations is left as it is at module level. *)
Example untyped_function_untouched :
  visited_node (def_at 1 "f") (init "m" sample_conf) = def_at 1 "f".
Proof. reflexivity. Qed.

(** ** The module visitor *)

Lemma visit_Module_spec (node : Module_) (self : BeartypeNodeTransformer) :
  visit_Module node self =
  (Module (map (transform (_conf_beartype self)
                          (_is_scope_class_beartype self))
               (mod_body (visit_Module_import node))),
   self,
   flat_map (trace_of (_scope_stack_beartype self)
                      (_scope_name_beartype self))
            (mod_body (visit_Module_import node))).
Proof.
  unfold visit_Module, generic_visit_Module.
  rewrite visit_list_spec; [reflexivity|].
  apply Forall_forall. intros x _. apply visit_spec.
Qed.

Lemma run_spec module_name conf (node : Module_) :
  run module_name conf node =
  (Module (map (transform conf false) (mod_body (visit_Module_import node))),
   init module_name conf,
   flat_map (trace_of [] module_name) (mod_body (visit_Module_import node))).
Proof. unfold run. rewrite visit_Module_spec. reflexivity. Qed.

Lemma count_leading_le p (l : list stmt) :
  count_leading p l <= List.length l.
Proof.
  induction l as [|x rest IH]; simpl; [lia|]. destruct (p x); lia.
Qed.

Lemma count_leading_prefix p (l : list stmt) :
  Forall (fun x => p x = true) (firstn (count_leading p l) l).
Proof.
  induction l as [|x rest IH]; simpl; [constructor|].
  destruct (p x) eqn:Hx; simpl; [constructor; assumption|constructor].
Qed.

Lemma count_leading_stop p (l : list stmt) x :
  nth_error l (count_leading p l) = Some x -> p x = false.
Proof.
  induction l as [|y rest IH]; simpl; [discriminate|].
  destruct (p y) eqn:Hy; simpl; [exact IH|congruence].
Qed.

Lemma count_leading_all p (l : list stmt) :
  count_leading p l = List.length l <-> forallb p l = true.
Proof.
  induction l as [|x rest IH]; simpl; [tauto|].
  destruct (p x); simpl.
  - rewrite <- IH. lia.
  - split; [lia|discriminate].
Qed.

Lemma loop_index (body : list stmt) :
  forall idx prev,
    fst (visit_Module_loop body idx prev)
    = idx + count_leading is_docstring_or_future body.
Proof.
  induction body as [|x rest IH]; intros idx prev; simpl; [lia|].
  destruct (is_docstring_or_future x); simpl; [|lia].
  rewrite IH. lia.
Qed.

(** When the loop breaks, [node_prev] is the child at which it broke, i.e.
    the child at the index found. *)
Lemma loop_node_prev (body : list stmt) :
  forall idx prev x,
    nth_error body (count_leading is_docstring_or_future body) = Some x ->
    snd (visit_Module_loop body idx prev) = AstStmt x.
Proof.
  induction body as [|y rest IH]; intros idx prev x; simpl; [discriminate|].
  destruct (is_docstring_or_future y); simpl.
  - apply IH.
  - congruence.
Qed.

Lemma cursor_count (node : Module_) :
  cursor node = count_leading is_docstring_or_future (mod_body node).
Proof. unfold cursor. rewrite loop_index. reflexivity. Qed.

Lemma visit_Module_import_eq (node : Module_) :
  visit_Module_import node =
  if (cursor node =? List.length (mod_body node))%nat then node
  else Module (slice_insert (mod_body node) (cursor node)
                 (make_node_importfrom "beartype.claw._ast._clawaststar" "*"
                    (snd (visit_Module_loop (mod_body node) 0
                                            (AstModule node))))).
Proof.
  unfold visit_Module_import, cursor.
  destruct (visit_Module_loop (mod_body node) 0 (AstModule node)) as [k p].
  simpl. destruct (k =? List.length (mod_body node))%nat; reflexivity.
Qed.

Lemma slice_insert_nth (l : list stmt) i x :
  i <= List.length l -> nth_error (slice_insert l i x) i = Some x.
Proof.
  intros H. unfold slice_insert.
  rewrite nth_error_app2; rewrite length_firstn, Nat.min_l by lia; [|lia].
  rewrite Nat.sub_diag. reflexivity.
Qed.

Lemma slice_insert_before (l : list stmt) i x j :
  j < i -> i <= List.length l ->
  nth_error (slice_insert l i x) j = nth_error l j.
Proof.
  intros Hj Hi. unfold slice_insert.
  rewrite nth_error_app1 by (rewrite length_firstn; lia).
  rewrite nth_error_firstn.
  destruct (Nat.ltb_spec j i); [reflexivity|lia].
Qed.

Lemma slice_insert_after (l : list stmt) i x j :
  i <= j -> i <= List.length l ->
  nth_error (slice_insert l i x) (S j) = nth_error l j.
Proof.
  intros Hj Hi. unfold slice_insert.
  rewrite nth_error_app2; rewrite length_firstn, Nat.min_l by lia; [|lia].
  replace (S j - i) with (S (j - i)) by lia. simpl.
  rewrite nth_error_skipn. f_equal. lia.
Qed.

Lemma slice_insert_length (l : list stmt) i x :
  List.length (slice_insert l i x) = S (List.length l).
Proof.
  unfold slice_insert. rewrite length_app. simpl.
  rewrite <- (firstn_skipn i l) at 3. rewrite length_app. lia.
Qed.

(** *** Every node of a run *)

Lemma children_of_transform conf in_class (node : stmt) :
  children_of (transform conf in_class node)
  = map (transform conf (child_in_class in_class node)) (children_of node).
Proof. destruct node; reflexivity. Qed.

(** The node at a path of the tree returned is the node returned for the
    node at that path. *)
Lemma subnode_transform conf (p : list nat) :
  forall in_class node,
    subnode p (transform conf in_class node)
    = option_map (transform conf (in_class_at p in_class node))
                 (subnode p node).
Proof.
  induction p as [|i q IH]; intros in_class node; cbn [subnode in_class_at].
  - reflexivity.
  - rewrite children_of_transform, nth_error_map.
    destruct (nth_error (children_of node) i) as [child|]; cbn [option_map].
    + apply IH.
    + reflexivity.
Qed.

Lemma subnode_snoc (p : list nat) (i : nat) :
  forall node parent,
    subnode p node = Some parent ->
    subnode (p ++ [i]) node = nth_error (children_of parent) i.
Proof.
  induction p as [|j q IH]; intros node parent; cbn [subnode app].
  - intros H. injection H as <-.
    destruct (nth_error (children_of node) i); reflexivity.
  - destruct (nth_error (children_of node) j) as [child|]; [|discriminate].
    apply IH.
Qed.

Lemma moved_index_spec (node : Module_) (i : nat) :
  nth_error (mod_body (visit_Module_import node)) (moved_index node i)
  = nth_error (mod_body node) i.
Proof.
  rewrite visit_Module_import_eq. unfold moved_index.
  pose proof (count_leading_le is_docstring_or_future (mod_body node)) as Hle.
  rewrite <- cursor_count in Hle.
  destruct (cursor node =? List.length (mod_body node))%nat; [reflexivity|].
  cbn [mod_body]. destruct (Nat.ltb_spec i (cursor node)).
  - apply slice_insert_before; assumption.
  - apply slice_insert_after; assumption.
Qed.

(** What a run returns for the node at a path of the module. *)
Lemma module_subnode_run module_name conf (node : Module_) (p : list nat) c :
  module_subnode p node = Some c ->
  module_subnode (moved node p) (fst (fst (run module_name conf node)))
  = Some (transform conf (module_in_class_at p node) c).
Proof.
  destruct p as [|i q]; cbn [module_subnode module_in_class_at moved];
    [discriminate|].
  rewrite run_spec. cbn [fst mod_body].
  rewrite nth_error_map, moved_index_spec.
  destruct (nth_error (mod_body node) i) as [child|]; [|discriminate].
  cbn [option_map]. rewrite subnode_transform. intros ->. reflexivity.
Qed.

Lemma module_subnode_snoc (node : Module_) (p : list nat) (i : nat) parent :
  module_subnode p node = Some parent ->
  module_subnode (p ++ [i]) node = nth_error (children_of parent) i.
Proof.
  destruct p as [|j q]; cbn [module_subnode app]; [discriminate|].
  destruct (nth_error (mod_body node) j) as [child|]; [|discriminate].
  apply subnode_snoc.
Qed.

(** C1. In a run on any module, for every class definition node of the
    module and every function definition node directly in the body of that
    class, typed or not, the class returned holds that function at the same
    index with the decorator list it had: it receives no decoration
    reference.  For whenever the top of the scope stack is the class node
    type, [visit_FunctionDef] leaves the decorator list of its node. *)
Theorem C1_methods_receive_no_decoration
  (module_name : string) (conf : BeartypeConf) (node : Module_)
  (p : list nat) cname bases body decos meta
  (i : nat) fname fargs fbody fdecos freturns fmeta :
  module_subnode p node = Some (ClassDef cname bases body decos meta) ->
  nth_error body i
  = Some (FunctionDef fname fargs fbody fdecos freturns fmeta) ->
  let out := fst (fst (run module_name conf node)) in
  (exists body' fbody',
     module_subnode (moved node p) out
     = Some (ClassDef cname bases body' (Decoration conf meta :: decos) meta)
     /\ nth_error body' i
        = Some (FunctionDef fname fargs fbody' fdecos freturns fmeta)
     /\ module_subnode (moved node p ++ [i]) out
        = Some (FunctionDef fname fargs fbody' fdecos freturns fmeta))
  /\ (forall self,
        _is_scope_class_beartype self = true ->
        decorators
          (visited_node (FunctionDef fname fargs fbody fdecos freturns fmeta)
                        self)
        = fdecos).
Proof.
  intros Hp Hi out. unfold out. split.
  - pose proof (module_subnode_run module_name conf _ _ Hp) as Hc.
    cbn [transform] in Hc.
    exists (map (transform conf true) body), (map (transform conf false) fbody).
    assert (Hn : nth_error (map (transform conf true) body) i
                 = Some (FunctionDef fname fargs
                           (map (transform conf false) fbody)
                           fdecos freturns fmeta))
      by (rewrite nth_error_map, Hi; reflexivity).
    split; [exact Hc|]. split; [exact Hn|].
    rewrite (module_subnode_snoc _ _ i Hc). exact Hn.
  - intros self. apply visit_FunctionDef_in_class.
Qed.

Lemma C1_methods_receive_no_decoration_witness :
  exists body' fbody',
    module_subnode [1]
      (fst (fst (run "m" sample_conf
                     (Module [ClassDef "A" [] [typed_def_at 2 "f"] []
                                       (at_line 1)]))))
    = Some (ClassDef "A" [] body' [Decoration sample_conf (at_line 1)]
                     (at_line 1))
    /\ nth_error body' 0
       = Some (FunctionDef "f" (Arguments_ [] [Arg "x" None] None [] None)
                           fbody' [] (Some (OtherExpr "int" (at_line 2)))
                           (at_line 2)).
Proof.
  destruct (proj1
    (@C1_methods_receive_no_decoration
       "m" sample_conf
       (Module [ClassDef "A" [] [typed_def_at 2 "f"] [] (at_line 1)])
       [0] "A" [] [typed_def_at 2 "f"] [] (at_line 1) 0
       "f" (Arguments_ [] [Arg "x" None] None [] None) [pass_at (2 + 1)]
       [] (Some (OtherExpr "int" (at_line 2))) (at_line 2) eq_refl eq_refl))
    as (body' & fbody' & H1 & H2 & _).
  exists body', fbody'. split; [exact H1|exact H2].
Defined.

(** C2. In a run on any module, for every class definition node of the
    module, whatever its members, the class returned has exactly one
    decorator more, a decoration reference with the configuration of the run
    and the metadata of the class; and so does a class visited in any state
    of the transformer. *)
Theorem C2_class_receives_one_decoration
  (module_name : string) (conf : BeartypeConf) (node : Module_)
  (p : list nat) name bases body decos meta :
  module_subnode p node = Some (ClassDef name bases body decos meta) ->
  let out := fst (fst (run module_name conf node)) in
  (exists body',
     module_subnode (moved node p) out
     = Some (ClassDef name bases body' (Decoration conf meta :: decos) meta)
     /\ List.length body' = List.length body
     /\ count_decorations (Decoration conf meta :: decos)
        = S (count_decorations decos))
  /\ (forall self,
        decorators (visited_node (ClassDef name bases body decos meta) self)
        = Decoration (_conf_beartype self) meta :: decos).
Proof.
  intros Hp out. unfold out. split.
  - rewrite (module_subnode_run module_name conf _ _ Hp). cbn [transform].
    eexists. split; [reflexivity|]. split; [apply length_map|reflexivity].
  - intros self. rewrite visited_node_spec. reflexivity.
Qed.

Lemma C2_class_receives_one_decoration_witness :
  exists body',
    module_subnode [1]
      (fst (fst (run "m" sample_conf
                     (Module [ClassDef "A" [] [def_at 2 "f"] [] (at_line 1)]))))
    = Some (ClassDef "A" [] body' [Decoration sample_conf (at_line 1)]
                     (at_line 1))
    /\ List.length body' = 1.
Proof.
  destruct (proj1
    (@C2_class_receives_one_decoration
       "m" sample_conf
       (Module [ClassDef "A" [] [def_at 2 "f"] [] (at_line 1)])
       [0] "A" [] [def_at 2 "f"] [] (at_line 1) eq_refl))
    as (body' & H1 & H2 & _).
  exists body'. split; [exact H1|exact H2].
Defined.

(** What the code does for the functions that it does not take for methods.
    In a run on any module, for every [FunctionDef] node of the module whose
    innermost enclosing [ClassDef] or [FunctionDef] node is no [ClassDef]
    (the top frame of the scope stack is no class frame), the function
    returned has one decorator more, a decoration reference, iff the node
    declares a return annotation or at least one parameter annotation, and
    its decorator list otherwise. *)
Theorem function_outside_class_frame_decorated_iff_typed
  (module_name : string) (conf : BeartypeConf) (node : Module_)
  (p : list nat) name fargs body decos returns meta :
  module_subnode p node
  = Some (FunctionDef name fargs body decos returns meta) ->
  module_in_class_at p node = false ->
  let out := fst (fst (run module_name conf node)) in
  exists body' decos',
    module_subnode (moved node p) out
    = Some (FunctionDef name fargs body' decos' returns meta)
    /\ (decos' = Decoration conf meta :: decos
        <-> declares_annotation fargs returns)
    /\ (decos' = decos <-> ~ declares_annotation fargs returns).
Proof.
  intros Hp Hc out. unfold out.
  rewrite (module_subnode_run module_name conf _ _ Hp), Hc.
  cbn [transform negb andb]. eexists. eexists. split; [reflexivity|].
  rewrite <- (is_node_callable_typed_iff name fargs body decos returns meta).
  apply cons_or_not.
Qed.

Lemma function_outside_class_frame_decorated_iff_typed_witness :
  exists body',
    module_subnode [4]
      (fst (fst (run "m" sample_conf docstring_futures_def_module)))
    = Some (FunctionDef "f" (Arguments_ [] [Arg "x" None] None [] None)
                        body' [Decoration sample_conf (at_line 4)]
                        (Some (OtherExpr "int" (at_line 4))) (at_line 4)).
Proof.
  destruct (@function_outside_class_frame_decorated_iff_typed
              "m" sample_conf docstring_futures_def_module [3]
              "f" (Arguments_ [] [Arg "x" None] None [] None)
              [pass_at (4 + 1)] [] (Some (OtherExpr "int" (at_line 4)))
              (at_line 4) eq_refl eq_refl)
    as (body' & decos' & H1 & H2 & _).
  assert (Hd : decos' = [Decoration sample_conf (at_line 4)])
    by (apply H2; left; discriminate).
  rewrite Hd in H1. exists body'. exact H1.
Defined.


(** *** Where the import is inserted *)

Lemma is_preamble_preamble_from sibling :
  is_preamble (preamble_from sibling) = true.
Proof. reflexivity. Qed.

Lemma leading_future_skipped (l : list stmt) :
  Forall (fun x => is_docstring_or_future x = true)
         (firstn (count_leading is_future_import l) l).
Proof.
  induction l as [|x rest IH]; simpl; [constructor|].
  destruct (is_future_import x) eqn:Hx; simpl; constructor; [|exact IH].
  destruct x as [| | | [m|] ? ? ? |]; simpl in *; try discriminate.
  exact Hx.
Qed.

Lemma count_leading_unique p (l : list stmt) k :
  k <= List.length l ->
  Forall (fun x => p x = true) (firstn k l) ->
  (forall x, nth_error l k = Some x -> p x = false) ->
  count_leading p l = k.
Proof.
  revert k. induction l as [|y rest IH]; intros k Hk Hall Hstop; simpl in *.
  - lia.
  - destruct k as [|k]; simpl in *.
    + rewrite (Hstop y eq_refl). reflexivity.
    + inversion Hall as [|? ? Hy Hrest]; subst. rewrite Hy.
      f_equal. apply IH; [lia|assumption|assumption].
Qed.

Lemma spec_cursor_le (body : list stmt) : spec_cursor body <= List.length body.
Proof.
  destruct body as [|x rest]; simpl; [lia|].
  destruct (is_docstring x).
  - pose proof (count_leading_le is_future_import rest). lia.
  - pose proof (count_leading_le is_future_import (x :: rest)).
    simpl in *. lia.
Qed.

Lemma spec_cursor_skipped (body : list stmt) :
  Forall (fun x => is_docstring_or_future x = true)
         (firstn (spec_cursor body) body).
Proof.
  destruct body as [|x rest]; [constructor|]. unfold spec_cursor.
  destruct (is_docstring x) eqn:Hx.
  - simpl. constructor; [|apply leading_future_skipped].
    destruct x as [| |[[]| |]| |]; simpl in *; try discriminate; reflexivity.
  - apply leading_future_skipped.
Qed.

(** The code finds the index that the specification describes whenever the
    statement at that index is neither a constant expression nor a future
    import. *)
Lemma cursor_agrees_with_spec (node : Module_) :
  (forall x, nth_error (mod_body node) (spec_cursor (mod_body node)) = Some x ->
             is_docstring_or_future x = false) ->
  cursor node = spec_cursor (mod_body node).
Proof.
  intros H. rewrite cursor_count.
  apply count_leading_unique;
    [apply spec_cursor_le|apply spec_cursor_skipped|exact H].
Qed.

(** C4. For a module that begins with a docstring, then has a second string
    statement and a function, the property puts the import at index 1, after
    the one leading docstring (and so does the comment that introduces the
    index in [visit_Module]: a module beginning with only a module docstring
    gives index 1); the code's index is 2: the import lands after the second
    string statement, at index 2, before the function. *)
Theorem C4_second_string_statement_skipped :
  spec_cursor (mod_body two_strings_module) = 1
  /\ cursor two_strings_module = 2
  /\ cursor two_strings_module <> spec_cursor (mod_body two_strings_module)
  /\ nth_error (mod_body (fst (fst (run "m" sample_conf two_strings_module))))
               1 = Some (docstring_at 2 "more")
  /\ nth_error (mod_body (fst (fst (run "m" sample_conf two_strings_module))))
               2 = Some (preamble_from (AstStmt (def_at 3 "f"))).
Proof.
  repeat split; try reflexivity. vm_compute. discriminate.
Qed.

(** What the loop of [visit_Module] computes.  For every module body the
    index advances past every leading statement that passes the test of the
    loop (an expression statement whose value is a constant, or a future
    import), in any number and order, and stops at the first statement that
    does not; when that index is not the statement count, the import is
    inserted exactly there; and the index is the one that the specification
    describes whenever the statement there does not pass the test. *)
Theorem cursor_and_insertion (node : Module_) :
  let body := mod_body node in
  let k := cursor node in
  k = count_leading is_docstring_or_future body
  /\ k <= List.length body
  /\ Forall (fun x => is_docstring_or_future x = true) (firstn k body)
  /\ (forall x, nth_error body k = Some x -> is_docstring_or_future x = false)
  /\ (k <> List.length body ->
      exists sibling,
        mod_body (visit_Module_import node)
        = firstn k body ++ [preamble_from sibling] ++ skipn k body
        /\ nth_error (mod_body (visit_Module_import node)) k
           = Some (preamble_from sibling))
  /\ ((forall x, nth_error body (spec_cursor body) = Some x ->
                 is_docstring_or_future x = false) ->
      k = spec_cursor body).
Proof.
  intros body k. unfold k, body.
  split; [apply cursor_count|].
  split; [rewrite cursor_count; apply count_leading_le|].
  split; [rewrite cursor_count; apply count_leading_prefix|].
  split; [rewrite cursor_count; intros x; apply count_leading_stop|].
  split; [|apply cursor_agrees_with_spec].
  intros Hk. rewrite visit_Module_import_eq.
  apply Nat.eqb_neq in Hk. rewrite Hk. eexists. split; [reflexivity|].
  cbn [mod_body]. apply slice_insert_nth.
  rewrite cursor_count. apply count_leading_le.
Qed.

Lemma cursor_and_insertion_witness :
  cursor docstring_futures_def_module = 3
  /\ exists sibling,
      nth_error (mod_body (visit_Module_import docstring_futures_def_module)) 3
      = Some (preamble_from sibling).
Proof.
  split; [reflexivity|].
  destruct (cursor_and_insertion docstring_futures_def_module)
    as (_ & _ & _ & _ & H & _).
  destruct H as [sibling [_ H]]; [vm_compute; lia|].
  exists sibling. exact H.
Defined.

(** C5. For a module whose statement sequence begins with a docstring, then
    two future-import statements, then a function definition, [visit_Module]
    inserts the import at index 3 of the module body, right after the future
    imports and before the function definition. *)
Theorem C5_docstring_two_futures_function
  (self : BeartypeNodeTransformer)
  text cmeta dmeta names1 level1 meta1 names2 level2 meta2
  name fargs body decos returns meta (rest : list stmt) :
  let doc := Expr (Constant (ConstStr text) cmeta) dmeta in
  let future1 := ImportFrom (Some "__future__") names1 level1 meta1 in
  let future2 := ImportFrom (Some "__future__") names2 level2 meta2 in
  let def := FunctionDef name fargs body decos returns meta in
  let node := Module (doc :: future1 :: future2 :: def :: rest) in
  let body' := mod_body (fst (fst (visit_Module node self))) in
  cursor node = 3
  /\ nth_error body' 0 = Some doc
  /\ nth_error body' 1 = Some future1
  /\ nth_error body' 2 = Some future2
  /\ nth_error body' 3 = Some (preamble_from (AstStmt def))
  /\ nth_error body' 4 = Some (visited_node def self)
  /\ List.length body' = S (List.length (mod_body node)).
Proof.
  intros doc future1 future2 def node body'. unfold body'.
  rewrite visit_Module_spec. cbn [fst mod_body].
  unfold def at 2. rewrite visited_node_spec.
  repeat split. simpl. rewrite length_map. reflexivity.
Qed.

Lemma transform_skipped conf in_class (l : list stmt) :
  forallb is_docstring_or_future l = true ->
  map (transform conf in_class) l = l.
Proof.
  induction l as [|x rest IH]; simpl; [reflexivity|].
  rewrite andb_true_iff. intros [Hx Hrest]. rewrite IH by assumption.
  destruct x; simpl in *; try discriminate; reflexivity.
Qed.

Lemma is_preamble_transform conf in_class (x : stmt) :
  is_preamble (transform conf in_class x) = is_preamble x.
Proof. destruct x; reflexivity. Qed.

Lemma count_preamble_transform conf in_class (l : list stmt) :
  count_preamble (map (transform conf in_class) l) = count_preamble l.
Proof.
  unfold count_preamble. induction l as [|x rest IH]; simpl; [reflexivity|].
  rewrite is_preamble_transform. destruct (is_preamble x); simpl; lia.
Qed.

Lemma count_preamble_insert (l : list stmt) i sibling :
  count_preamble (slice_insert l i (preamble_from sibling))
  = S (count_preamble l).
Proof.
  unfold count_preamble, slice_insert.
  rewrite <- (firstn_skipn i l) at 3.
  rewrite !filter_app, !length_app. simpl. lia.
Qed.

(** When the import is made.  A module all of whose statements pass the
    test of the loop (the code's index equals the statement count) gets no
    import and is returned unchanged; this holds of every module whose body
    is empty or is a docstring and future imports, as the specification words
    the trivial case; any other module gets exactly one import more than it
    had. *)
Theorem trivial_module_untouched
  (node : Module_) (self : BeartypeNodeTransformer) :
  let out := fst (fst (visit_Module node self)) in
  let n := List.length (mod_body node) in
  (cursor node = n <-> forallb is_docstring_or_future (mod_body node) = true)
  /\ (spec_cursor (mod_body node) = n -> cursor node = n)
  /\ (cursor node = n -> visit_Module_import node = node /\ out = node)
  /\ (cursor node <> n ->
      List.length (mod_body out) = S n
      /\ count_preamble (mod_body out) = S (count_preamble (mod_body node)))
  /\ (count_preamble (mod_body out) = count_preamble (mod_body node)
      <-> cursor node = n).
Proof.
  intros out n. unfold out, n.
  assert (Hiff : cursor node = List.length (mod_body node) <->
                 forallb is_docstring_or_future (mod_body node) = true)
    by (rewrite cursor_count; apply count_leading_all).
  assert (Hspec : spec_cursor (mod_body node) = List.length (mod_body node) ->
                  cursor node = List.length (mod_body node)).
  { intros Hs. rewrite <- Hs. apply cursor_agrees_with_spec.
    intros x Hx. rewrite Hs in Hx.
    assert (Hnone : nth_error (mod_body node) (List.length (mod_body node))
                    = None) by (apply nth_error_None; lia).
    congruence. }
  rewrite visit_Module_spec. cbn [fst mod_body].
  rewrite count_preamble_transform, length_map, visit_Module_import_eq.
  destruct (Nat.eqb_spec (cursor node) (List.length (mod_body node)))
    as [He|Hne].
  - split; [exact Hiff|]. split; [exact Hspec|]. split.
    + intros _. split; [reflexivity|].
      rewrite transform_skipped by (apply Hiff; exact He).
      destruct node; reflexivity.
    + split; [intros Hf; contradiction|]. split; auto.
  - cbn [mod_body]. rewrite count_preamble_insert, slice_insert_length.
    split; [exact Hiff|]. split; [exact Hspec|].
    split; [intros Hf; contradiction|].
    split; [auto|]. split; [lia|intros Hf; contradiction].
Qed.

Lemma trivial_module_untouched_witness :
  cursor docstring_only_module = 1
  /\ fst (fst (visit_Module docstring_only_module (init "m" sample_conf)))
     = docstring_only_module.
Proof.
  split; [reflexivity|].
  apply (trivial_module_untouched docstring_only_module
           (init "m" sample_conf)).
  reflexivity.
Defined.

(** C6. The property fails for modules that hold more than a docstring and
    future imports and still get no import.  A docstring followed by a second
    string statement: the index of the specification is 1 of 2 statements, so
    the module is not the trivial case, yet the code's index is 2, nothing is
    inserted and the run returns the module as it was, with no import.  The
    same for a module that is the statement [42], which is no docstring: the
    index of the specification is 0 of 1. *)
Theorem C6_constant_statements_get_no_import :
  spec_cursor (mod_body two_strings_only_module) = 1
  /\ List.length (mod_body two_strings_only_module) = 2
  /\ cursor two_strings_only_module = 2
  /\ fst (fst (run "m" sample_conf two_strings_only_module))
     = two_strings_only_module
  /\ count_preamble
       (mod_body (fst (fst (run "m" sample_conf two_strings_only_module)))) = 0
  /\ forallb is_docstring (mod_body number_only_module) = false
  /\ spec_cursor (mod_body number_only_module) = 0
  /\ List.length (mod_body number_only_module) = 1
  /\ cursor number_only_module = 1
  /\ fst (fst (run "m" sample_conf number_only_module)) = number_only_module
  /\ count_preamble
       (mod_body (fst (fst (run "m" sample_conf number_only_module)))) = 0.
Proof.
  split; [reflexivity|]. split; [reflexivity|]. split; [reflexivity|].
  split; [vm_compute; reflexivity|]. split; [vm_compute; reflexivity|].
  split; [reflexivity|]. split; [reflexivity|]. split; [reflexivity|].
  split; [reflexivity|]. split; vm_compute; reflexivity.
Qed.


(** Where the metadata of the import comes from.  Whenever the import is
    inserted, at index 0 or later, the loop has left in [node_prev] the
    statement found at the insertion index, which then follows the import,
    and the metadata of the import is copied from it. *)
Theorem metadata_from_next_sibling (node : Module_) :
  cursor node <> List.length (mod_body node) ->
  exists sibling,
    nth_error (mod_body node) (cursor node) = Some sibling
    /\ snd (visit_Module_loop (mod_body node) 0 (AstModule node))
       = AstStmt sibling
    /\ nth_error (mod_body (visit_Module_import node)) (cursor node)
       = Some (preamble_from (AstStmt sibling))
    /\ stmt_meta (preamble_from (AstStmt sibling)) = stmt_meta sibling
    /\ nth_error (mod_body (visit_Module_import node)) (S (cursor node))
       = Some sibling.
Proof.
  intros Hk.
  assert (Hlt : cursor node < List.length (mod_body node)).
  { pose proof (count_leading_le is_docstring_or_future (mod_body node)).
    rewrite cursor_count in *. lia. }
  destruct (nth_error (mod_body node) (cursor node)) as [sibling|] eqn:Hn;
    [|apply nth_error_None in Hn; lia].
  exists sibling. split; [reflexivity|].
  assert (Hp : snd (visit_Module_loop (mod_body node) 0 (AstModule node))
               = AstStmt sibling).
  { apply loop_node_prev. rewrite <- cursor_count. exact Hn. }
  split; [exact Hp|].
  rewrite visit_Module_import_eq.
  apply Nat.eqb_neq in Hk. rewrite Hk, Hp. cbn [mod_body].
  split; [apply slice_insert_nth; lia|].
  split; [reflexivity|].
  rewrite slice_insert_after by lia. exact Hn.
Qed.

Lemma metadata_from_next_sibling_witness :
  exists sibling,
    nth_error (mod_body def_only_module) 0 = Some sibling
    /\ nth_error (mod_body (visit_Module_import def_only_module)) 0
       = Some (preamble_from (AstStmt sibling)).
Proof.
  destruct (metadata_from_next_sibling def_only_module)
    as (sibling & H1 & _ & H2 & _); [vm_compute; lia|].
  exists sibling. split; [exact H1|exact H2].
Defined.

(** ** The scope stack *)

Lemma visits_app (a b : list event) : visits (a ++ b) = visits a ++ visits b.
Proof.
  induction a as [|e a IH]; simpl; [reflexivity|].
  destruct e; simpl; rewrite IH; reflexivity.
Qed.

Lemma qualified_snoc module_name (frames : list frame) t name :
  qualified module_name (frames ++ [(t, name)])
  = (qualified module_name frames ++ "." ++ name)%string.
Proof. unfold qualified. rewrite fold_left_app. reflexivity. Qed.

Lemma visits_flat_map module_name (l : list stmt) :
  Forall (fun node => forall frames,
            visits (trace_of (map fst frames)
                             (qualified module_name frames) node)
            = map (visit_under module_name) (lexical_visits frames node)) l ->
  forall frames,
    visits (flat_map (trace_of (map fst frames)
                               (qualified module_name frames)) l)
    = map (visit_under module_name) (flat_map (lexical_visits frames) l).
Proof.
  induction 1 as [|x rest Hx _ IH]; intros frames; simpl; [reflexivity|].
  rewrite visits_app, map_app, Hx, IH. reflexivity.
Qed.

(** Every visit finds on the stack the kinds of the scopes that enclose the
    node, and in the scope name their qualified name. *)
Lemma visits_trace_of module_name (node : stmt) :
  forall frames,
    visits (trace_of (map fst frames) (qualified module_name frames) node)
    = map (visit_under module_name) (lexical_visits frames node).
Proof.
  induction node as [name fargs body decos returns meta IH
                    |name bases body decos meta IH
                    |value meta
                    |module names level meta
                    |kind children meta IH] using stmt_ind; intros frames;
    cbn [trace_of lexical_visits visits map]; try reflexivity.
  - rewrite visits_app, app_nil_r.
    pose proof (@visits_flat_map module_name body IH
                  (frames ++ [(TFunctionDef, name)])) as H.
    rewrite map_app, qualified_snoc in H. cbn [map fst] in H. rewrite H.
    reflexivity.
  - rewrite visits_app, app_nil_r.
    pose proof (@visits_flat_map module_name body IH
                  (frames ++ [(TClassDef, name)])) as H.
    rewrite map_app, qualified_snoc in H. cbn [map fst] in H. rewrite H.
    reflexivity.
  - rewrite (@visits_flat_map module_name children IH). reflexivity.
Qed.

Lemma pushes_pops_flat_map (f : stmt -> list event) (l : list stmt) :
  Forall (fun node => List.length (filter is_push (f node))
                      = List.length (filter is_pop (f node))) l ->
  List.length (filter is_push (flat_map f l))
  = List.length (filter is_pop (flat_map f l)).
Proof.
  induction 1 as [|x rest Hx _ IH]; simpl; [reflexivity|].
  rewrite !filter_app, !length_app. lia.
Qed.

(** As many pushes as pops. *)
Lemma pushes_pops_trace_of (node : stmt) :
  forall stack name,
    List.length (filter is_push (trace_of stack name node))
    = List.length (filter is_pop (trace_of stack name node)).
Proof.
  induction node as [name fargs body decos returns meta IH
                    |name bases body decos meta IH
                    |value meta
                    |module names level meta
                    |kind children meta IH] using stmt_ind; intros stack sname;
    cbn [trace_of filter is_push is_pop List.length]; try reflexivity.
  - rewrite !filter_app, !length_app.
    rewrite (@pushes_pops_flat_map
               (trace_of (stack ++ [TFunctionDef]) (sname ++ "." ++ name)%string)
               body); [simpl; lia|].
    eapply Forall_impl; [|exact IH]. intros x Hx. apply Hx.
  - rewrite !filter_app, !length_app.
    rewrite (@pushes_pops_flat_map
               (trace_of (stack ++ [TClassDef]) (sname ++ "." ++ name)%string)
               body); [simpl; lia|].
    eapply Forall_impl; [|exact IH]. intros x Hx. apply Hx.
  - apply pushes_pops_flat_map.
    eapply Forall_impl; [|exact IH]. intros x Hx. apply Hx.
Qed.

Lemma replay_flat_map (l : list stmt) :
  Forall (fun node => forall stack name rest d_end,
            replay (List.length stack) (trace_of stack name node ++ rest) d_end
            = replay (List.length stack) rest d_end) l ->
  forall stack name rest d_end,
    replay (List.length stack) (flat_map (trace_of stack name) l ++ rest) d_end
    = replay (List.length stack) rest d_end.
Proof.
  induction 1 as [|x tl Hx _ IH]; intros stack name rest d_end; simpl;
    [reflexivity|].
  rewrite <- app_assoc, Hx. apply IH.
Qed.

(** Replaying the pushes and pops of a visit: every visit finds the depth
    they give, no pop finds the stack empty, and the depth is restored. *)
Lemma replay_trace_of (node : stmt) :
  forall stack name rest d_end,
    replay (List.length stack) (trace_of stack name node ++ rest) d_end
    = replay (List.length stack) rest d_end.
Proof.
  induction node as [name fargs body decos returns meta IH
                    |name bases body decos meta IH
                    |value meta
                    |module names level meta
                    |kind children meta IH] using stmt_ind;
    intros stack sname rest d_end;
    cbn [trace_of app replay]; rewrite Nat.eqb_refl; cbn [andb];
    try reflexivity.
  - pose proof (@replay_flat_map body IH (stack ++ [TFunctionDef])) as H.
    rewrite length_app, Nat.add_1_r in H.
    rewrite <- app_assoc, H. cbn [app replay Nat.ltb Nat.leb pred andb].
    reflexivity.
  - pose proof (@replay_flat_map body IH (stack ++ [TClassDef])) as H.
    rewrite length_app, Nat.add_1_r in H.
    rewrite <- app_assoc, H. cbn [app replay Nat.ltb Nat.leb pred andb].
    reflexivity.
  - apply (@replay_flat_map children IH).
Qed.

Lemma lexical_frames_flat_map (l : list stmt) :
  Forall (fun node => forall frames v,
            Forall (fun f => TYPES_NODE_LEXICAL_SCOPE (fst f) = true) frames ->
            In v (lexical_visits frames node) ->
            Forall (fun f => TYPES_NODE_LEXICAL_SCOPE (fst f) = true) (snd v))
         l ->
  forall frames v,
    Forall (fun f => TYPES_NODE_LEXICAL_SCOPE (fst f) = true) frames ->
    In v (flat_map (lexical_visits frames) l) ->
    Forall (fun f : frame => TYPES_NODE_LEXICAL_SCOPE (fst f) = true) (snd v).
Proof.
  intros H frames v Hf Hin. apply in_flat_map in Hin.
  destruct Hin as [x [Hx Hv]]. rewrite Forall_forall in H.
  exact (H x Hx frames v Hf Hv).
Qed.

(** The frames of a visit are frames of classes and functions. *)
Lemma lexical_frames (node : stmt) :
  forall frames v,
    Forall (fun f => TYPES_NODE_LEXICAL_SCOPE (fst f) = true) frames ->
    In v (lexical_visits frames node) ->
    Forall (fun f : frame => TYPES_NODE_LEXICAL_SCOPE (fst f) = true) (snd v).
Proof.
  induction node as [name fargs body decos returns meta IH
                    |name bases body decos meta IH
                    |value meta
                    |module names level meta
                    |kind children meta IH] using stmt_ind;
    intros frames v Hf; cbn [lexical_visits];
    intros [<-|Hin]; try exact Hf; try contradiction.
  - apply (@lexical_frames_flat_map body IH
             (frames ++ [(TFunctionDef, name)])); [|exact Hin].
    apply Forall_app. split; [exact Hf|]. constructor; [reflexivity|constructor].
  - apply (@lexical_frames_flat_map body IH
             (frames ++ [(TClassDef, name)])); [|exact Hin].
    apply Forall_app. split; [exact Hf|]. constructor; [reflexivity|constructor].
  - apply (@lexical_frames_flat_map children IH frames); assumption.
Qed.

(** The balance of the scope stack.  In a full traversal of any tree there
    are as many pushes on the scope stack as pops; the stack is empty before
    and after; replaying the pushes and pops, every visit finds a stack of
    the depth they give, which holds the kinds of the [ClassDef] and
    [FunctionDef] nodes enclosing the visited node; and every visit of a
    node, scope-introducing or not, returns the transformer as it found it,
    scope name included, which is the module name in the end. *)
Theorem scope_stack_balanced
  (module_name : string) (conf : BeartypeConf) (node : Module_) :
  let self' := snd (fst (run module_name conf node)) in
  let tr := snd (run module_name conf node) in
  List.length (filter is_push tr) = List.length (filter is_pop tr)
  /\ _scope_stack_beartype (init module_name conf) = []
  /\ _scope_stack_beartype self' = []
  /\ _scope_name_beartype self' = module_name
  /\ replay 0 tr 0 = true
  /\ visits tr
     = map (visit_under module_name)
           (flat_map (lexical_visits []) (mod_body (visit_Module_import node)))
  /\ (forall n stack name,
        In (n, stack, name) (visits tr) ->
        exists frames,
          stack = map fst frames
          /\ name = qualified module_name frames
          /\ List.length stack = List.length frames
          /\ Forall (fun f => TYPES_NODE_LEXICAL_SCOPE (fst f) = true) frames)
  /\ (forall (n : stmt) (self : BeartypeNodeTransformer),
        snd (fst (visit n self)) = self).
Proof.
  intros self' tr. unfold self', tr. rewrite run_spec. cbn [fst snd].
  set (body := mod_body (visit_Module_import node)).
  assert (Hv : visits (flat_map (trace_of [] module_name) body)
               = map (visit_under module_name)
                     (flat_map (lexical_visits []) body)).
  { apply (@visits_flat_map module_name body) with (frames := []).
    apply Forall_forall. intros x _. apply visits_trace_of. }
  split.
  { apply pushes_pops_flat_map. apply Forall_forall.
    intros x _. apply pushes_pops_trace_of. }
  split; [reflexivity|]. split; [reflexivity|]. split; [reflexivity|].
  split.
  { rewrite <- (app_nil_r (flat_map _ body)).
    rewrite (@replay_flat_map body) with (stack := []); [reflexivity|].
    apply Forall_forall. intros x _. apply replay_trace_of. }
  split; [exact Hv|]. split.
  - intros n stack name Hin. rewrite Hv in Hin.
    apply in_map_iff in Hin. destruct Hin as [[n' frames] [Heq Hin]].
    unfold visit_under in Heq. cbn [fst snd] in Heq.
    injection Heq as <- <- <-. exists frames.
    split; [reflexivity|]. split; [reflexivity|].
    split; [apply length_map|].
    apply in_flat_map in Hin. destruct Hin as [x [_ Hx]].
    exact (@lexical_frames x [] (n', frames) (Forall_nil _) Hx).
  - intros n self. apply visit_restores.
Qed.


(** ** Further properties of the transformer *)

(** *** Where the import goes, and what stays *)

Lemma firstn_slice_insert (l : list stmt) i x :
  i <= List.length l -> firstn i (slice_insert l i x) = firstn i l.
Proof.
  intros H. unfold slice_insert.
  rewrite firstn_app, length_firstn, Nat.min_l, Nat.sub_diag by lia.
  cbn [firstn]. rewrite app_nil_r, firstn_firstn, Nat.min_id. reflexivity.
Qed.


Lemma cursor_le (node : Module_) : cursor node <= List.length (mod_body node).
Proof. rewrite cursor_count. apply count_leading_le. Qed.




(** *** What a run changes in a node *)




(** X4. In a run on any module, a function definition that sits directly in
    a class scope, whether directly in the class body or under statements
    that open no scope (a condition, a loop, a [try]), is returned with the
    decorator list it had, typed or not. *)
Theorem function_in_class_scope_undecorated
  (module_name : string) (conf : BeartypeConf) (node : Module_)
  (p : list nat) name fargs body decos returns meta :
  module_subnode p node
  = Some (FunctionDef name fargs body decos returns meta) ->
  module_in_class_at p node = true ->
  exists body',
    module_subnode (moved node p) (fst (fst (run module_name conf node)))
    = Some (FunctionDef name fargs body' decos returns meta).
Proof.
  intros Hp Hc.
  rewrite (module_subnode_run module_name conf _ _ Hp), Hc.
  cbn [transform negb andb]. eexists. reflexivity.
Qed.

Lemma function_in_class_scope_undecorated_witness :
  exists body',
    module_subnode [1; 0; 0]
      (fst (fst (run "m" sample_conf conditional_method_module)))
    = Some (FunctionDef "f" (Arguments_ [] [Arg "x" None] None [] None)
                        body' [] (Some (OtherExpr "int" (at_line (2 + 1))))
                        (at_line (2 + 1))).
Proof.
  exact (@function_in_class_scope_undecorated
           "m" sample_conf conditional_method_module [0; 0; 0]
           "f" (Arguments_ [] [Arg "x" None] None [] None)
           [pass_at (2 + 1 + 1)] []
           (Some (OtherExpr "int" (at_line (2 + 1)))) (at_line (2 + 1))
           eq_refl eq_refl).
Defined.

(** *** Scope names *)

Lemma run_visits module_name conf (node : Module_) :
  visits (snd (run module_name conf node))
  = map (visit_under module_name)
        (flat_map (lexical_visits []) (mod_body (visit_Module_import node))).
Proof.
  rewrite run_spec. cbn [snd].
  apply (@visits_flat_map module_name (mod_body (visit_Module_import node)))
    with (frames := []).
  apply Forall_forall. intros x _. apply visits_trace_of.
Qed.

Lemma prefix_append (a b : string) : String.prefix a (a ++ b) = true.
Proof.
  induction a as [|c a IH]; cbn [String.append].
  - destruct b; reflexivity.
  - cbn [String.prefix].
    destruct (ascii_dec c c) as [_|Hc]; [exact IH|congruence].
Qed.

Lemma qualified_from_module module_name (frames : list frame) :
  exists suffix,
    qualified module_name frames = (module_name ++ suffix)%string.
Proof.
  induction frames as [|f frames IH] using rev_ind.
  - exists "". unfold qualified. cbn [fold_left].
    induction module_name as [|c m IHm]; cbn [String.append];
      [reflexivity|]. f_equal. exact IHm.
  - destruct IH as [suffix IH]. destruct f as [t name].
    rewrite qualified_snoc, IH. cbn [snd].
    exists (suffix ++ "." ++ name)%string.
    clear IH. induction module_name as [|c m IHm]; cbn [String.append];
      [reflexivity|]. f_equal. exact IHm.
Qed.

(** X5. At every visit of a run the fully-qualified name of the current
    scope starts with the name of the module, as the class documents. *)
Theorem scope_name_prefixed_by_module_name
  (module_name : string) (conf : BeartypeConf) (node : Module_)
  (n : stmt) (stack : list node_type) (name : string) :
  In (n, stack, name) (visits (snd (run module_name conf node))) ->
  String.prefix module_name name = true.
Proof.
  rewrite run_visits. intros Hin.
  apply in_map_iff in Hin. destruct Hin as [[n' frames] [Heq _]].
  unfold visit_under in Heq. cbn [fst snd] in Heq.
  injection Heq as _ _ <-.
  destruct (qualified_from_module module_name frames) as [suffix ->].
  apply prefix_append.
Qed.

Lemma scope_name_prefixed_by_module_name_witness :
  String.prefix "m" "m.A" = true.
Proof.
  apply (@scope_name_prefixed_by_module_name
           "m" sample_conf conditional_method_module
           (conditional_def_at 2 "f") [TClassDef] "m.A").
  vm_compute. right. right. left. reflexivity.
Defined.

(** *** How visits compose *)

(** X6. The children of a node are each visited in one and the same state,
    whatever their number and order: the state of the parent for a statement
    that opens no scope, and for a class or function the state of the parent
    with the kind of the node pushed and its name appended to the scope name;
    the class is decorated, the function is when [visit_FunctionDef] says
    so. *)
Theorem children_visited_in_entered_state (self : BeartypeNodeTransformer) :
  (forall kind children meta,
     visited_node (Stmt kind children meta) self
     = Stmt kind (map (fun child => visited_node child self) children) meta)
  /\ (forall name bases body decos meta,
        visited_node (ClassDef name bases body decos meta) self
        = ClassDef name bases
            (map (fun child =>
                    visited_node child (entered self TClassDef name)) body)
            (Decoration (_conf_beartype self) meta :: decos) meta)
  /\ (forall name fargs body decos returns meta,
        visited_node (FunctionDef name fargs body decos returns meta) self
        = FunctionDef name fargs
            (map (fun child =>
                    visited_node child (entered self TFunctionDef name)) body)
            (decorators
               (visited_node (FunctionDef name fargs body decos returns meta)
                             self))
            returns meta).
Proof.
  split; [|split]; intros; rewrite !visited_node_spec; cbn [transform decorators];
    f_equal; apply map_ext; intros child; rewrite visited_node_spec;
    rewrite ?is_scope_class_entered, ?conf_entered; reflexivity.
Qed.

(** *** A second run *)

Lemma skipped_transform conf in_class (x : stmt) :
  is_docstring_or_future (transform conf in_class x)
  = is_docstring_or_future x.
Proof. destruct x; reflexivity. Qed.

Lemma count_leading_transform conf in_class (l : list stmt) :
  count_leading is_docstring_or_future (map (transform conf in_class) l)
  = count_leading is_docstring_or_future l.
Proof.
  induction l as [|x rest IH]; cbn [map count_leading]; [reflexivity|].
  rewrite skipped_transform, IH. reflexivity.
Qed.

Lemma count_leading_insert (l : list stmt) sibling :
  count_leading is_docstring_or_future
    (slice_insert l (count_leading is_docstring_or_future l)
                  (preamble_from sibling))
  = count_leading is_docstring_or_future l.
Proof.
  pose proof (count_leading_le is_docstring_or_future l) as Hle.
  apply count_leading_unique.
  - rewrite slice_insert_length. lia.
  - rewrite firstn_slice_insert by exact Hle. apply count_leading_prefix.
  - intros x. rewrite slice_insert_nth by exact Hle.
    intros H. injection H as <-. reflexivity.
Qed.

(** The import does not move the place where an import goes. *)
Lemma cursor_after_run module_name conf (node : Module_) :
  cursor (fst (fst (run module_name conf node))) = cursor node.
Proof.
  rewrite run_spec. cbn [fst]. rewrite !cursor_count. cbn [mod_body].
  rewrite count_leading_transform, visit_Module_import_eq, cursor_count.
  destruct (count_leading is_docstring_or_future (mod_body node)
            =? List.length (mod_body node))%nat; [reflexivity|].
  cbn [mod_body]. apply count_leading_insert.
Qed.

Lemma run_counts module_name conf (node : Module_) :
  let out := mod_body (fst (fst (run module_name conf node))) in
  let added :=
    if (cursor node =? List.length (mod_body node))%nat then 0 else 1 in
  List.length out = List.length (mod_body node) + added
  /\ count_preamble out = count_preamble (mod_body node) + added.
Proof.
  cbv zeta. rewrite run_spec. cbn [fst mod_body].
  rewrite length_map, count_preamble_transform, visit_Module_import_eq.
  destruct (cursor node =? List.length (mod_body node))%nat.
  - lia.
  - cbn [mod_body]. rewrite slice_insert_length, count_preamble_insert. lia.
Qed.

(** X7. A run is not idempotent: a second run on the module that a run
    returned finds the same insertion index and, unless the module is
    trivial, inserts a second import there; and a class that is visited
    again gets a second decoration reference. *)
Theorem second_run_instruments_again
  (module_name : string) (conf : BeartypeConf) (node : Module_) :
  let once := fst (fst (run module_name conf node)) in
  let twice := fst (fst (run module_name conf once)) in
  cursor once = cursor node
  /\ (cursor node <> List.length (mod_body node) ->
      count_preamble (mod_body twice) = 2 + count_preamble (mod_body node)
      /\ List.length (mod_body twice) = 2 + List.length (mod_body node)
      /\ exists sibling,
           nth_error (mod_body twice) (cursor node)
           = Some (preamble_from sibling))
  /\ (forall self self' name bases body decos meta,
        decorators
          (visited_node
             (visited_node (ClassDef name bases body decos meta) self) self')
        = Decoration (_conf_beartype self') meta
          :: Decoration (_conf_beartype self) meta :: decos).
Proof.
  intros once twice. unfold twice, once.
  pose proof (cursor_after_run module_name conf node) as Hc.
  pose proof (cursor_le node) as Hle.
  split; [exact Hc|]. split.
  - intros Hk.
    destruct (run_counts module_name conf node) as [Hl1 Hp1].
    destruct (run_counts module_name conf
                (fst (fst (run module_name conf node)))) as [Hl2 Hp2].
    rewrite Hc in Hl2, Hp2.
    apply Nat.eqb_neq in Hk. rewrite Hk in Hl1, Hp1.
    assert (Hk2 : (cursor node
                   =? List.length
                        (mod_body (fst (fst (run module_name conf node)))))%nat
                  = false) by (apply Nat.eqb_neq; lia).
    rewrite Hk2 in Hl2, Hp2.
    split; [lia|]. split; [lia|].
    rewrite (run_spec module_name conf (fst (fst (run module_name conf node)))).
    cbn [fst mod_body]. rewrite visit_Module_import_eq, Hc, Hk2.
    cbn [mod_body]. eexists.
    rewrite nth_error_map, slice_insert_nth by lia. reflexivity.
  - intros self self' name bases body decos meta.
    rewrite (visited_node_spec (ClassDef name bases body decos meta) self).
    cbn [transform]. rewrite visited_node_spec. reflexivity.
Qed.

Lemma second_run_instruments_again_witness :
  count_preamble
    (mod_body (fst (fst (run "m" sample_conf
                             (fst (fst (run "m" sample_conf
                                            def_only_module)))))))
  = 2.
Proof.
  assert (Hk : cursor def_only_module
               <> List.length (mod_body def_only_module))
    by (vm_compute; lia).
  exact (proj1 (proj1 (proj2 (@second_run_instruments_again
                                "m" sample_conf def_only_module)) Hk)).
Defined.

End ClawFacts.

(* ================================================================== *)
(** * Part IV: properties of the source-code getter                    *)
(* ================================================================== *)

Module FuncCodeFacts.

Import FuncCode.

Local Open Scope string_scope.
Local Open Scope list_scope.
Local Open Scope Z_scope.

(** ** The unparser *)

Lemma unparse_each_app stdlib (a b : list node) :
  unparse_each stdlib (a ++ b) =
  match unparse_each stdlib a with
  | Ok ca =>
      match unparse_each stdlib b with
      | Ok cb => Ok (ca ++ cb)
      | Raise e => Raise e
      end
  | Raise e => Raise e
  end.
Proof.
  induction a as [|x a IH]; simpl.
  - destruct (unparse_each stdlib b); reflexivity.
  - destruct (ast_unparse stdlib x); [|reflexivity].
    rewrite IH. destruct (unparse_each stdlib a); [|reflexivity].
    destruct (unparse_each stdlib b); reflexivity.
Qed.

Lemma visit_each_spec stdlib line (children : list node) :
  Forall (fun n => forall acc,
            visit stdlib line n acc
            = after_unparsing stdlib (lambdas_on line n) acc) children ->
  forall acc,
    visit_each (visit stdlib line) children acc
    = after_unparsing stdlib
        (filter (starts_on line) (flat_map (visited line) children)) acc.
Proof.
  unfold after_unparsing, lambdas_on.
  induction 1 as [|x rest Hx _ IH]; intros acc; simpl.
  - rewrite app_nil_r. reflexivity.
  - rewrite Hx, filter_app, unparse_each_app.
    destruct (unparse_each stdlib (filter (starts_on line) (visited line x)))
      as [cx|e]; [|reflexivity].
    rewrite IH.
    destruct (unparse_each stdlib
                (filter (starts_on line) (flat_map (visited line) rest)))
      as [cr|e]; [|reflexivity].
    rewrite app_assoc. reflexivity.
Qed.

Theorem unparser_visit_spec stdlib line (n : node) :
  forall acc,
    visit stdlib line n acc = after_unparsing stdlib (lambdas_on line n) acc.
Proof.
  induction n as [lineno code children IH|kind children IH] using node_ind;
    intros acc; cbn [visit]; unfold lambdas_on; cbn [visited filter starts_on].
  - unfold visit_Lambda, generic_visit.
    destruct (Z.eqb_spec lineno line) as [He|Hne].
    + replace (lineno <=? line) with true by (symmetry; apply Z.leb_le; lia).
      unfold after_unparsing. cbn [unparse_each].
      destruct (ast_unparse stdlib (Lambda lineno code children)) as [c|e];
        [|reflexivity].
      rewrite (@visit_each_spec stdlib line children IH).
      unfold after_unparsing.
      destruct (unparse_each stdlib _) as [cs|e]; [|reflexivity].
      rewrite <- app_assoc. reflexivity.
    + destruct (Z.ltb_spec lineno line) as [Hlt|Hge].
      * replace (lineno <=? line) with true by (symmetry; apply Z.leb_le; lia).
        apply (@visit_each_spec stdlib line children IH).
      * replace (lineno <=? line) with false
          by (symmetry; apply Z.leb_gt; lia).
        unfold after_unparsing. simpl. rewrite app_nil_r. reflexivity.
  - unfold generic_visit. apply (@visit_each_spec stdlib line children IH).
Qed.

Lemma unparse_lambdas_spec stdlib line (ast_tree : node) :
  0 <= line ->
  unparse_lambdas stdlib line ast_tree
  = unparse_each stdlib (lambdas_on line ast_tree).
Proof.
  intros H. unfold unparse_lambdas.
  replace (line >=? 0) with true by (symmetry; apply Z.geb_le; lia).
  rewrite unparser_visit_spec. unfold after_unparsing.
  destruct (unparse_each stdlib (lambdas_on line ast_tree)); reflexivity.
Qed.

Lemma unparse_each_first stdlib (l : list node) c cs :
  unparse_each stdlib l = Ok (c :: cs) ->
  exists first others,
    l = first :: others
    /\ ast_unparse stdlib first = Ok c
    /\ unparse_each stdlib others = Ok cs.
Proof.
  destruct l as [|x rest]; simpl; [discriminate|].
  destruct (ast_unparse stdlib x) as [cx|e] eqn:Hx; [|discriminate].
  destruct (unparse_each stdlib rest) as [cr|e] eqn:Hr; [|discriminate].
  intros H. injection H as <- <-. exists x, rest. auto.
Qed.

Lemma unparse_each_length stdlib (l : list node) cs :
  unparse_each stdlib l = Ok cs -> List.length cs = List.length l.
Proof.
  revert cs. induction l as [|x rest IH]; simpl; intros cs.
  - intros H. injection H as <-. reflexivity.
  - destruct (ast_unparse stdlib x); [|discriminate].
    destruct (unparse_each stdlib rest) as [cr|e]; [|discriminate].
    intros H. injection H as <-. simpl. rewrite (IH cr eq_refl). reflexivity.
Qed.

(** On a tree whose lines are ordered the unparser misses no lambda of the
    line: what it meets there is what the whole tree has there, in
    pre-order. *)
Lemma later_lambdas_off_line line lineno (l : list node) :
  line < lineno ->
  forallb (fun d => match d with
                    | Lambda l' _ _ => lineno <=? l'
                    | Node _ _ => true
                    end) l = true ->
  filter (starts_on line) l = [].
Proof.
  intros Hlt. induction l as [|x rest IH]; simpl; [reflexivity|].
  rewrite andb_true_iff. intros [Hx Hrest]. rewrite (IH Hrest).
  destruct x as [l' c ch|k ch]; simpl; [|reflexivity].
  apply Z.leb_le in Hx.
  replace (l' =? line) with false by (symmetry; apply Z.eqb_neq; lia).
  reflexivity.
Qed.

Lemma lambdas_on_flat_map line (children : list node) :
  Forall (fun n => lines_ordered n = true ->
                   lambdas_on line n = filter (starts_on line) (preorder n))
         children ->
  forallb lines_ordered children = true ->
  filter (starts_on line) (flat_map (visited line) children)
  = filter (starts_on line) (flat_map preorder children).
Proof.
  unfold lambdas_on.
  induction 1 as [|x rest Hx _ IH]; simpl; [reflexivity|].
  rewrite andb_true_iff. intros [Ho Hrest].
  rewrite !filter_app, (Hx Ho), (IH Hrest). reflexivity.
Qed.

Lemma lambdas_on_preorder line (n : node) :
  lines_ordered n = true ->
  lambdas_on line n = filter (starts_on line) (preorder n).
Proof.
  induction n as [lineno code children IH|kind children IH] using node_ind;
    unfold lambdas_on; cbn [visited preorder lines_ordered filter starts_on].
  - rewrite andb_true_iff. intros [Ho Hl].
    destruct (Z.leb_spec lineno line) as [Hle|Hgt].
    + rewrite (@lambdas_on_flat_map line children IH Ho). reflexivity.
    + replace (lineno =? line) with false by (symmetry; apply Z.eqb_neq; lia).
      simpl. symmetry. exact (later_lambdas_off_line _ Hgt Hl).
  - intros Ho. exact (@lambdas_on_flat_map line children IH Ho).
Qed.

(** ** The getter *)

Lemma fallback_never_parses func cls :
  filter is_parse (snd (get_func_code_lines_or_none func cls)) = [].
Proof.
  unfold get_func_code_lines_or_none.
  destruct (is_func_file func); [|reflexivity].
  destruct (getsource func); reflexivity.
Qed.

(** What the getter does for a lambda of a file of a million characters or
    more. *)
Lemma large_file_result stdlib func cls lines :
  is_func_lambda func = true ->
  is_func_file func = true ->
  findsource func = Ok lines ->
  _LAMBDA_CODE_FILESIZE_MAX <= len (join "" lines) ->
  get_func_code_or_none true stdlib func cls =
  (fst (get_func_code_lines_or_none func cls),
   Warn (match get_func_codeobj func with
         | Ok _ => msg_file_size func
         | Raise format_exc => msg_not_parsable func format_exc
         end) cls
   :: snd (get_func_code_lines_or_none func cls)).
Proof.
  intros Hl Hf Hs Hlen.
  unfold get_func_code_or_none, get_func_code_or_none_try,
    get_func_file_code_lines_or_none.
  rewrite Hl, Hf, Hs.
  destruct (join "" lines) as [|c rest] eqn:Hj;
    [unfold _LAMBDA_CODE_FILESIZE_MAX in Hlen; cbv in Hlen;
     exfalso; apply Hlen; reflexivity|].
  destruct (get_func_codeobj func) as [codeobj|e].
  - replace (len (String c rest) >=? _LAMBDA_CODE_FILESIZE_MAX) with true
      by (symmetry; apply Z.geb_le; exact Hlen).
    destruct (get_func_code_lines_or_none func cls). reflexivity.
  - destruct (get_func_code_lines_or_none func cls). reflexivity.
Qed.

(** What the getter does for a lambda of a shorter file that parses and
    has two lambdas or more on the line of the lambda. *)
Lemma ambiguous_result stdlib func cls lines codeobj ast_tree c1 c2 cs :
  is_func_lambda func = true ->
  is_func_file func = true ->
  findsource func = Ok lines ->
  join "" lines <> "" ->
  len (join "" lines) < _LAMBDA_CODE_FILESIZE_MAX ->
  get_func_codeobj func = Ok codeobj ->
  0 <= co_firstlineno codeobj ->
  ast_parse stdlib (join "" lines) = Ok ast_tree ->
  unparse_each stdlib (lambdas_on (co_firstlineno codeobj) ast_tree)
  = Ok (c1 :: c2 :: cs) ->
  get_func_code_or_none true stdlib func cls =
  (Some c1,
   [AstParse (join "" lines);
    Warn (msg_ambiguous func (c1 :: c2 :: cs)) cls]).
Proof.
  intros Hl Hf Hs Hne Hlen Hc Hline Hp Hu.
  unfold get_func_code_or_none, get_func_code_or_none_try,
    get_func_file_code_lines_or_none.
  rewrite Hl, Hf, Hs.
  destruct (join "" lines) as [|c rest] eqn:Hj; [congruence|].
  rewrite Hc.
  replace (len (String c rest) >=? _LAMBDA_CODE_FILESIZE_MAX) with false
    by (symmetry; rewrite Z.geb_leb; apply Z.leb_gt; exact Hlen).
  rewrite Hp, (unparse_lambdas_spec _ _ Hline), Hu.
  replace (Z.of_nat (List.length (c1 :: c2 :: cs)) >=? 2) with true
    by (symmetry; apply Z.geb_le; cbn [List.length]; lia).
  reflexivity.
Qed.

(** C9, as stated, fails: the file of [big_func] is readable and parses,
    and two lambdas start on the line of the lambda, but the file has more
    than a million characters: the getter warns about the file size only and
    returns the lines of the callable, not the code of the first lambda. *)
Lemma C9_counterexample :
  is_func_lambda big_func = true
  /\ findsource big_func = Ok [two_lambdas_line; long_comment]
  /\ ast_parse sample_stdlib (join "" [two_lambdas_line; long_comment])
     = Ok two_lambdas_tree
  /\ lambdas_on 1 two_lambdas_tree = [first_lambda; second_lambda]
  /\ ast_unparse sample_stdlib first_lambda = Ok "lambda: 'and black,'"
  /\ get_func_code_or_none true sample_stdlib big_func sample_warning
     = (Some two_lambdas_line,
        [Warn (msg_file_size big_func) sample_warning])
  /\ fst (get_func_code_or_none true sample_stdlib big_func sample_warning)
     <> Some "lambda: 'and black,'".
Proof.
  assert (H : get_func_code_or_none true sample_stdlib big_func sample_warning
              = (Some two_lambdas_line,
                 [Warn (msg_file_size big_func) sample_warning]))
    by (vm_compute; reflexivity).
  split; [reflexivity|]. split; [reflexivity|]. split; [reflexivity|].
  split; [vm_compute; reflexivity|]. split; [reflexivity|].
  split; [exact H|]. rewrite H. vm_compute. discriminate.
Qed.

(** C9, amended. Under Python 3.9 or later, for every lambda callable whose
    declaring file is readable, holds fewer than 1,000,000 characters and
    parses, when two or more lambda expressions start on the lambda's first
    line number and unparse without error, [get_func_code_or_none] warns once,
    about the ambiguity, and returns the unparsed code of the first such
    lambda that the unparser meets, which on a tree with ordered lines is the
    first such lambda of the tree in pre-order; it raises nothing. *)
Theorem C9_ambiguous_lambda_first_wins
  stdlib func cls lines codeobj ast_tree first second others :
  is_func_lambda func = true ->
  is_func_file func = true ->
  findsource func = Ok lines ->
  join "" lines <> "" ->
  len (join "" lines) < _LAMBDA_CODE_FILESIZE_MAX ->
  get_func_codeobj func = Ok codeobj ->
  0 <= co_firstlineno codeobj ->
  ast_parse stdlib (join "" lines) = Ok ast_tree ->
  lambdas_on (co_firstlineno codeobj) ast_tree = first :: second :: others ->
  (forall n, In n (first :: second :: others) ->
             exists code, ast_unparse stdlib n = Ok code) ->
  exists code codes,
    ast_unparse stdlib first = Ok code
    /\ unparse_each stdlib (first :: second :: others) = Ok (code :: codes)
    /\ get_func_code_or_none true stdlib func cls
       = (Some code,
          [AstParse (join "" lines);
           Warn (msg_ambiguous func (code :: codes)) cls])
    /\ (lines_ordered ast_tree = true ->
        exists later,
          filter (starts_on (co_firstlineno codeobj)) (preorder ast_tree)
          = first :: later).
Proof.
  intros Hl Hf Hs Hne Hlen Hc Hline Hp Hon Hall.
  assert (Hcodes : forall l : list node,
             (forall n, In n l -> exists code, ast_unparse stdlib n = Ok code) ->
             exists codes, unparse_each stdlib l = Ok codes).
  { induction l as [|x rest IH]; intros Hx; simpl; [eexists; reflexivity|].
    destruct (Hx x (or_introl eq_refl)) as [cx Hcx]. rewrite Hcx.
    destruct IH as [cr Hcr]; [intros n Hn; apply Hx; right; exact Hn|].
    rewrite Hcr. eexists; reflexivity. }
  destruct (Hcodes _ Hall) as [codes Hcodes'].
  pose proof (unparse_each_length _ _ Hcodes') as Hlenc.
  destruct codes as [|c1 [|c2 cs]]; try discriminate.
  destruct (unparse_each_first _ _ Hcodes')
    as (f & o & Heq & Hfirst & _).
  injection Heq as <- <-.
  exists c1, (c2 :: cs). split; [exact Hfirst|]. split; [exact Hcodes'|].
  split.
  - apply ambiguous_result with (codeobj := codeobj) (ast_tree := ast_tree);
      try assumption.
    rewrite Hon. exact Hcodes'.
  - intros Ho. rewrite <- (lambdas_on_preorder _ _ Ho), Hon.
    eexists; reflexivity.
Qed.

Lemma C9_ambiguous_lambda_first_wins_witness :
  get_func_code_or_none true sample_stdlib small_func sample_warning
  = (Some "lambda: 'and black,'",
     [AstParse two_lambdas_line;
      Warn (msg_ambiguous small_func
              ["lambda: 'and black,'"; "lambda: 'and pale,'"])
           sample_warning]).
Proof.
  assert (Hne : join "" [two_lambdas_line] <> "") by (vm_compute; discriminate).
  assert (Hlen : len (join "" [two_lambdas_line]) < _LAMBDA_CODE_FILESIZE_MAX)
    by (vm_compute; reflexivity).
  assert (Hline : 0 <= co_firstlineno (Code 1)) by (simpl; lia).
  assert (Hall : forall n, In n [first_lambda; second_lambda] ->
                           exists code, ast_unparse sample_stdlib n = Ok code)
    by (intros [l c ch|k ch] _; eexists; reflexivity).
  destruct (@C9_ambiguous_lambda_first_wins
              sample_stdlib small_func sample_warning [two_lambdas_line]
              (Code 1) two_lambdas_tree first_lambda second_lambda []
              eq_refl eq_refl eq_refl Hne Hlen eq_refl Hline eq_refl eq_refl
              Hall)
    as (code & codes & H1 & H2 & H3 & _).
  injection H2 as <- <-. exact H3.
Defined.

(** C10. For every lambda callable whose declaring file holds 1,000,000
    characters or more, [get_func_code_or_none] never hands that text, nor
    any other, to the parser, whatever the parser is: it returns what the
    line-oriented lookup returns, and (under Python 3.9 or later, where the
    getter parses at all) it first emits one warning. *)
Theorem C10_large_file_never_parsed
  (IS_PYTHON_AT_LEAST_3_9 : bool) stdlib func cls lines :
  is_func_lambda func = true ->
  is_func_file func = true ->
  findsource func = Ok lines ->
  _LAMBDA_CODE_FILESIZE_MAX <= len (join "" lines) ->
  let result := get_func_code_or_none IS_PYTHON_AT_LEAST_3_9 stdlib func cls in
  filter is_parse (snd result) = []
  /\ fst result = fst (get_func_code_lines_or_none func cls)
  /\ (forall stdlib',
        get_func_code_or_none IS_PYTHON_AT_LEAST_3_9 stdlib' func cls = result)
  /\ (IS_PYTHON_AT_LEAST_3_9 = true ->
      exists message,
        snd result
        = Warn message cls :: snd (get_func_code_lines_or_none func cls)
        /\ (forall codeobj, get_func_codeobj func = Ok codeobj ->
                            message = msg_file_size func)).
Proof.
  intros Hl Hf Hs Hlen result. unfold result.
  destruct IS_PYTHON_AT_LEAST_3_9.
  - rewrite (@large_file_result stdlib func cls lines Hl Hf Hs Hlen).
    cbn [fst snd filter is_parse].
    split; [apply fallback_never_parses|]. split; [reflexivity|].
    split; [intros stdlib'; apply (@large_file_result stdlib' func cls lines);
            assumption|].
    intros _. eexists. split; [reflexivity|].
    intros codeobj Hc. rewrite Hc. reflexivity.
  - cbn [get_func_code_or_none].
    split; [apply fallback_never_parses|]. split; [reflexivity|].
    split; [reflexivity|discriminate].
Qed.

Lemma big_func_file_size :
  _LAMBDA_CODE_FILESIZE_MAX <= len (join "" [two_lambdas_line; long_comment]).
Proof. vm_compute. discriminate. Qed.

Lemma C10_large_file_never_parsed_witness :
  filter is_parse
    (snd (get_func_code_or_none true sample_stdlib big_func sample_warning))
  = []
  /\ fst (get_func_code_or_none true sample_stdlib big_func sample_warning)
     = Some two_lambdas_line.
Proof.
  destruct (@C10_large_file_never_parsed
              true sample_stdlib big_func sample_warning
              [two_lambdas_line; long_comment]
              eq_refl eq_refl eq_refl big_func_file_size)
    as (H1 & H2 & _).
  split; [exact H1|exact H2].
Defined.

(** ** Further properties of the getter *)

Lemma fallback_cases func cls :
  get_func_code_lines_or_none func cls = (None, [])
  \/ (exists code, get_func_code_lines_or_none func cls = (Some code, []))
  \/ (exists message,
        get_func_code_lines_or_none func cls = (None, [Warn message cls])).
Proof.
  unfold get_func_code_lines_or_none.
  destruct (is_func_file func); [|auto].
  destruct (getsource func); eauto.
Qed.

(** The getter, by what the body of the [try] statement does. *)
Lemma getter_by_try stdlib func cls :
  is_func_lambda func = true ->
  get_func_code_or_none true stdlib func cls =
  match get_func_code_or_none_try stdlib func cls with
  | (Ok (Some code), eff) => (Some code, eff)
  | (Ok None, eff) => fell_back func cls eff
  | (Raise format_exc, eff) =>
      fell_back func cls (eff ++ [Warn (msg_not_parsable func format_exc) cls])
  end.
Proof.
  intros Hl. unfold get_func_code_or_none, fell_back. rewrite Hl.
  destruct (get_func_code_or_none_try stdlib func cls) as [[[code|]|e] eff];
    destruct (get_func_code_lines_or_none func cls); reflexivity.
Qed.

(** The body of the [try] statement for a file that is read and is short
    enough to be parsed. *)
Lemma try_parses stdlib func cls lines codeobj :
  is_func_file func = true ->
  findsource func = Ok lines ->
  join "" lines <> "" ->
  len (join "" lines) < _LAMBDA_CODE_FILESIZE_MAX ->
  get_func_codeobj func = Ok codeobj ->
  get_func_code_or_none_try stdlib func cls =
  match ast_parse stdlib (join "" lines) with
  | Raise e => (Raise e, [AstParse (join "" lines)])
  | Ok ast_tree =>
      match unparse_lambdas stdlib (co_firstlineno codeobj) ast_tree with
      | Raise e => (Raise e, [AstParse (join "" lines)])
      | Ok [] =>
          (Ok None,
           [AstParse (join "" lines); Warn (msg_not_found func) cls])
      | Ok [only] => (Ok (Some only), [AstParse (join "" lines)])
      | Ok ((first :: _ :: _) as lambdas_code) =>
          (Ok (Some first),
           [AstParse (join "" lines);
            Warn (msg_ambiguous func lambdas_code) cls])
      end
  end.
Proof.
  intros Hf Hs Hne Hlen Hc.
  unfold get_func_code_or_none_try, get_func_file_code_lines_or_none.
  rewrite Hf, Hs.
  destruct (join "" lines) as [|c rest] eqn:Hj; [congruence|].
  rewrite Hc.
  replace (len (String c rest) >=? _LAMBDA_CODE_FILESIZE_MAX) with false
    by (symmetry; rewrite Z.geb_leb; apply Z.leb_gt; exact Hlen).
  destruct (ast_parse stdlib (String c rest)) as [ast_tree|e]; [|reflexivity].
  destruct (unparse_lambdas stdlib (co_firstlineno codeobj) ast_tree)
    as [[|first [|second others]]|e]; try reflexivity.
  replace (Z.of_nat (List.length (first :: second :: others)) >=? 2) with true
    by (symmetry; apply Z.geb_le; cbn [List.length]; lia).
  reflexivity.
Qed.

(** Case analysis over everything the getter asks about its callable and
    its standard library. *)
Ltac getter_cases :=
  unfold get_func_code_or_none, get_func_code_or_none_try,
    get_func_file_code_lines_or_none, get_func_code_lines_or_none;
  repeat match goal with
    | |- context [is_func_lambda ?f] => destruct (is_func_lambda f) eqn:?
    | |- context [is_func_file ?f] => destruct (is_func_file f) eqn:?
    | |- context [findsource ?f] => destruct (findsource f) eqn:?
    | |- context [match join ?a ?l with _ => _ end] =>
        destruct (join a l) eqn:?
    | |- context [get_func_codeobj ?f] => destruct (get_func_codeobj f) eqn:?
    | |- context [?a >=? ?b] => destruct (a >=? b) eqn:?
    | |- context [ast_parse ?l ?t] => destruct (ast_parse l t) eqn:?
    | |- context [unparse_lambdas ?l ?n ?t] =>
        destruct (unparse_lambdas l n t) as [[|? [|? ?]]|?] eqn:?
    | |- context [getsource ?f] => destruct (getsource f) eqn:?
    end.

Ltac effect_cases :=
  repeat match goal with
    | H : _ \/ _ |- _ => destruct H
    | H : False |- _ => contradiction
    | H : Warn _ _ = AstParse _ |- _ => discriminate H
    | H : AstParse _ = Warn _ _ |- _ => discriminate H
    | H : AstParse _ = AstParse _ |- _ => injection H as <-
    | H : Warn _ _ = Warn _ _ |- _ => injection H as <- <-
    end.

(** X8. Whatever the callable, the interpreter and the standard library,
    [get_func_code_or_none] hands a text to the parser at most once, only for
    a lambda under Python 3.9 or later, only the text of the file of the
    callable, and only when that text has fewer than 1,000,000 characters;
    it emits at most two warnings, each of the category passed in. *)
Theorem getter_effects_bounded
  (IS_PYTHON_AT_LEAST_3_9 : bool) stdlib func cls :
  let eff :=
    snd (get_func_code_or_none IS_PYTHON_AT_LEAST_3_9 stdlib func cls) in
  (forall text,
     In (AstParse text) eff ->
     IS_PYTHON_AT_LEAST_3_9 = true
     /\ is_func_lambda func = true
     /\ (exists lines, findsource func = Ok lines /\ text = join "" lines)
     /\ len text < _LAMBDA_CODE_FILESIZE_MAX)
  /\ (List.length (filter is_parse eff) <= 1)%nat
  /\ (List.length (filter is_warning eff) <= 2)%nat
  /\ (forall message category,
        In (Warn message category) eff -> category = cls).
Proof.
  cbv zeta. destruct IS_PYTHON_AT_LEAST_3_9; getter_cases.
  all: cbn [snd fst app filter is_parse is_warning List.length In].
  all: repeat split; try lia; intros; effect_cases; try reflexivity.
  all: try (eexists; split; [reflexivity|symmetry; eassumption]).
  all: match goal with
       | H : (_ >=? _) = false |- _ < _ =>
           rewrite Z.geb_leb in H; apply Z.leb_gt in H; exact H
       end.
Qed.

(** X9. A lambda whose file is read, is short enough and parses, and on whose
    line exactly one lambda starts, which unparses: the getter returns the
    code of that lambda and emits no warning. *)
Theorem single_lambda_returned_silently
  stdlib func cls lines codeobj ast_tree only code :
  is_func_lambda func = true ->
  is_func_file func = true ->
  findsource func = Ok lines ->
  join "" lines <> "" ->
  len (join "" lines) < _LAMBDA_CODE_FILESIZE_MAX ->
  get_func_codeobj func = Ok codeobj ->
  0 <= co_firstlineno codeobj ->
  ast_parse stdlib (join "" lines) = Ok ast_tree ->
  lambdas_on (co_firstlineno codeobj) ast_tree = [only] ->
  ast_unparse stdlib only = Ok code ->
  get_func_code_or_none true stdlib func cls
  = (Some code, [AstParse (join "" lines)]).
Proof.
  intros Hl Hf Hs Hne Hlen Hc Hline Hp Hon Hu.
  rewrite (getter_by_try stdlib func cls Hl).
  rewrite (@try_parses stdlib func cls lines codeobj Hf Hs Hne Hlen Hc).
  rewrite Hp, (unparse_lambdas_spec _ _ Hline), Hon.
  cbn [unparse_each]. rewrite Hu. reflexivity.
Qed.

Lemma single_lambda_returned_silently_witness :
  get_func_code_or_none true one_lambda_stdlib small_func sample_warning
  = (Some "lambda: 'and black,'", [AstParse two_lambdas_line]).
Proof.
  assert (Hne : join "" [two_lambdas_line] <> "") by (vm_compute; discriminate).
  assert (Hlen : len (join "" [two_lambdas_line]) < _LAMBDA_CODE_FILESIZE_MAX)
    by (vm_compute; reflexivity).
  assert (Hline : 0 <= co_firstlineno (Code 1)) by (simpl; lia).
  exact (@single_lambda_returned_silently
           one_lambda_stdlib small_func sample_warning [two_lambdas_line]
           (Code 1) one_lambda_tree first_lambda "lambda: 'and black,'"
           eq_refl eq_refl eq_refl Hne Hlen eq_refl Hline eq_refl eq_refl
           eq_refl).
Defined.

(** X10. A lambda whose file is read, is short enough and parses, but on
    whose line no lambda starts: the getter warns that the lambda was not
    found, raises nothing, and returns what the line-oriented lookup
    returns. *)
Theorem lambda_not_found_falls_back
  stdlib func cls lines codeobj ast_tree :
  is_func_lambda func = true ->
  is_func_file func = true ->
  findsource func = Ok lines ->
  join "" lines <> "" ->
  len (join "" lines) < _LAMBDA_CODE_FILESIZE_MAX ->
  get_func_codeobj func = Ok codeobj ->
  0 <= co_firstlineno codeobj ->
  ast_parse stdlib (join "" lines) = Ok ast_tree ->
  lambdas_on (co_firstlineno codeobj) ast_tree = [] ->
  get_func_code_or_none true stdlib func cls
  = fell_back func cls
      [AstParse (join "" lines); Warn (msg_not_found func) cls].
Proof.
  intros Hl Hf Hs Hne Hlen Hc Hline Hp Hon.
  rewrite (getter_by_try stdlib func cls Hl).
  rewrite (@try_parses stdlib func cls lines codeobj Hf Hs Hne Hlen Hc).
  rewrite Hp, (unparse_lambdas_spec _ _ Hline), Hon. reflexivity.
Qed.

Lemma lambda_not_found_falls_back_witness :
  get_func_code_or_none true no_lambda_stdlib small_func sample_warning
  = (Some two_lambdas_line,
     [AstParse two_lambdas_line;
      Warn (msg_not_found small_func) sample_warning]).
Proof.
  assert (Hne : join "" [two_lambdas_line] <> "") by (vm_compute; discriminate).
  assert (Hlen : len (join "" [two_lambdas_line]) < _LAMBDA_CODE_FILESIZE_MAX)
    by (vm_compute; reflexivity).
  assert (Hline : 0 <= co_firstlineno (Code 1)) by (simpl; lia).
  exact (@lambda_not_found_falls_back
           no_lambda_stdlib small_func sample_warning [two_lambdas_line]
           (Code 1) no_lambda_tree
           eq_refl eq_refl eq_refl Hne Hlen eq_refl Hline eq_refl eq_refl).
Defined.

(** X11. When [ast.parse] raises on the text of the file, the getter raises
    nothing: it emits one warning that holds the traceback and returns what
    the line-oriented lookup returns. *)
Theorem parse_error_becomes_warning
  stdlib func cls lines codeobj format_exc :
  is_func_lambda func = true ->
  is_func_file func = true ->
  findsource func = Ok lines ->
  join "" lines <> "" ->
  len (join "" lines) < _LAMBDA_CODE_FILESIZE_MAX ->
  get_func_codeobj func = Ok codeobj ->
  ast_parse stdlib (join "" lines) = Raise format_exc ->
  get_func_code_or_none true stdlib func cls
  = fell_back func cls
      [AstParse (join "" lines); Warn (msg_not_parsable func format_exc) cls].
Proof.
  intros Hl Hf Hs Hne Hlen Hc Hp.
  rewrite (getter_by_try stdlib func cls Hl).
  rewrite (@try_parses stdlib func cls lines codeobj Hf Hs Hne Hlen Hc).
  rewrite Hp. reflexivity.
Qed.

Lemma parse_error_becomes_warning_witness :
  get_func_code_or_none true parse_failing_stdlib small_func sample_warning
  = (Some two_lambdas_line,
     [AstParse two_lambdas_line;
      Warn (msg_not_parsable small_func "SyntaxError: invalid syntax")
           sample_warning]).
Proof.
  assert (Hne : join "" [two_lambdas_line] <> "") by (vm_compute; discriminate).
  assert (Hlen : len (join "" [two_lambdas_line]) < _LAMBDA_CODE_FILESIZE_MAX)
    by (vm_compute; reflexivity).
  exact (@parse_error_becomes_warning
           parse_failing_stdlib small_func sample_warning [two_lambdas_line]
           (Code 1) "SyntaxError: invalid syntax"
           eq_refl eq_refl eq_refl Hne Hlen eq_refl eq_refl).
Defined.

Lemma unparse_each_raises stdlib (before after : list node) bad format_exc :
  (forall n, In n before -> exists code, ast_unparse stdlib n = Ok code) ->
  ast_unparse stdlib bad = Raise format_exc ->
  unparse_each stdlib (before ++ bad :: after) = Raise format_exc.
Proof.
  intros Hb Hbad. induction before as [|x rest IH]; cbn [app unparse_each].
  - rewrite Hbad. reflexivity.
  - destruct (Hb x (or_introl eq_refl)) as [cx ->].
    rewrite IH; [reflexivity|]. intros n Hn. apply Hb. right. exact Hn.
Qed.

(** X12. When [ast.unparse] raises on one of the lambdas of the line, after
    unparsing the ones before it, the getter raises nothing and returns none
    of the codes: it emits one warning that holds the traceback and returns
    what the line-oriented lookup returns. *)
Theorem unparse_error_becomes_warning
  stdlib func cls lines codeobj ast_tree before bad after format_exc :
  is_func_lambda func = true ->
  is_func_file func = true ->
  findsource func = Ok lines ->
  join "" lines <> "" ->
  len (join "" lines) < _LAMBDA_CODE_FILESIZE_MAX ->
  get_func_codeobj func = Ok codeobj ->
  0 <= co_firstlineno codeobj ->
  ast_parse stdlib (join "" lines) = Ok ast_tree ->
  lambdas_on (co_firstlineno codeobj) ast_tree = before ++ bad :: after ->
  (forall n, In n before -> exists code, ast_unparse stdlib n = Ok code) ->
  ast_unparse stdlib bad = Raise format_exc ->
  get_func_code_or_none true stdlib func cls
  = fell_back func cls
      [AstParse (join "" lines); Warn (msg_not_parsable func format_exc) cls].
Proof.
  intros Hl Hf Hs Hne Hlen Hc Hline Hp Hon Hb Hbad.
  rewrite (getter_by_try stdlib func cls Hl).
  rewrite (@try_parses stdlib func cls lines codeobj Hf Hs Hne Hlen Hc).
  rewrite Hp, (unparse_lambdas_spec _ _ Hline), Hon.
  rewrite (@unparse_each_raises stdlib before after bad format_exc Hb Hbad).
  reflexivity.
Qed.

Lemma unparse_error_becomes_warning_witness :
  get_func_code_or_none true unparse_failing_stdlib small_func sample_warning
  = (Some two_lambdas_line,
     [AstParse two_lambdas_line;
      Warn (msg_not_parsable small_func
              "RecursionError: maximum recursion depth exceeded")
           sample_warning]).
Proof.
  assert (Hne : join "" [two_lambdas_line] <> "") by (vm_compute; discriminate).
  assert (Hlen : len (join "" [two_lambdas_line]) < _LAMBDA_CODE_FILESIZE_MAX)
    by (vm_compute; reflexivity).
  assert (Hline : 0 <= co_firstlineno (Code 1)) by (simpl; lia).
  assert (Hb : forall n, In n [first_lambda] ->
                         exists code,
                           ast_unparse unparse_failing_stdlib n = Ok code).
  { intros n [<-|[]]. eexists. reflexivity. }
  exact (@unparse_error_becomes_warning
           unparse_failing_stdlib small_func sample_warning [two_lambdas_line]
           (Code 1) two_lambdas_tree [first_lambda] second_lambda []
           "RecursionError: maximum recursion depth exceeded"
           eq_refl eq_refl eq_refl Hne Hlen eq_refl Hline eq_refl eq_refl
           Hb eq_refl).
Defined.

(** X13. The getter returns [None] without any effect exactly for the
    callables that no file declares: with a file, it either returns code or
    warns. *)
Theorem silent_none_iff_in_memory
  (IS_PYTHON_AT_LEAST_3_9 : bool) stdlib func cls :
  get_func_code_or_none IS_PYTHON_AT_LEAST_3_9 stdlib func cls = (None, [])
  <-> is_func_file func = false.
Proof.
  destruct IS_PYTHON_AT_LEAST_3_9; getter_cases;
    cbn [app]; split; intros H; try reflexivity; try discriminate H.
Qed.

Lemma visited_in_preorder line (t : node) :
  forall n, In n (visited line t) -> In n (preorder t).
Proof.
  induction t as [lineno code children IH|kind children IH] using node_ind;
    intros n; cbn [visited preorder]; intros [<-|Hin]; try (left; reflexivity);
    right.
  - destruct (lineno <=? line); [|contradiction].
    apply in_flat_map in Hin. destruct Hin as [child [Hc Hn]].
    apply in_flat_map. exists child. split; [exact Hc|].
    rewrite Forall_forall in IH. exact (IH child Hc n Hn).
  - apply in_flat_map in Hin. destruct Hin as [child [Hc Hn]].
    apply in_flat_map. exists child. split; [exact Hc|].
    rewrite Forall_forall in IH. exact (IH child Hc n Hn).
Qed.

(** The first code that the unparser collects is the code of a lambda of the
    tree that starts on the line. *)
Lemma unparse_lambdas_first stdlib line (ast_tree : node) first others :
  unparse_lambdas stdlib line ast_tree = Ok (first :: others) ->
  exists n,
    In n (preorder ast_tree)
    /\ starts_on line n = true
    /\ ast_unparse stdlib n = Ok first.
Proof.
  unfold unparse_lambdas. destruct (line >=? 0); [|discriminate].
  rewrite unparser_visit_spec. unfold after_unparsing.
  destruct (unparse_each stdlib (lambdas_on line ast_tree)) as [codes|e] eqn:Hu;
    [|discriminate].
  cbn [app]. intros H. injection H as ->.
  destruct (unparse_each_first _ _ Hu) as (n & rest & Hon & Hn & _).
  exists n. assert (Hin : In n (lambdas_on line ast_tree))
    by (rewrite Hon; left; reflexivity).
  unfold lambdas_on in Hin. apply filter_In in Hin. destruct Hin as [Hv Hs].
  split; [exact (visited_in_preorder _ _ _ Hv)|]. split; assumption.
Qed.

(** X14. Whatever the callable, the interpreter and the standard library,
    what [get_func_code_or_none] returns is either what the line-oriented
    lookup returns, or the code that [ast.unparse] gives for a lambda of the
    parsed file that starts on the first line of the callable; so it returns
    code whenever the line-oriented lookup does. *)
Theorem result_is_lines_or_code_of_lambda_on_line
  (IS_PYTHON_AT_LEAST_3_9 : bool) stdlib func cls :
  let result :=
    fst (get_func_code_or_none IS_PYTHON_AT_LEAST_3_9 stdlib func cls) in
  (result = fst (get_func_code_lines_or_none func cls)
   \/ exists lines codeobj ast_tree n code,
        findsource func = Ok lines
        /\ get_func_codeobj func = Ok codeobj
        /\ ast_parse stdlib (join "" lines) = Ok ast_tree
        /\ In n (preorder ast_tree)
        /\ starts_on (co_firstlineno codeobj) n = true
        /\ ast_unparse stdlib n = Ok code
        /\ result = Some code)
  /\ (forall lines_code,
        fst (get_func_code_lines_or_none func cls) = Some lines_code ->
        exists code, result = Some code).
Proof.
  cbv zeta.
  assert (H : fst (get_func_code_or_none IS_PYTHON_AT_LEAST_3_9 stdlib func
                     cls)
              = fst (get_func_code_lines_or_none func cls)
              \/ exists lines codeobj ast_tree n code,
                   findsource func = Ok lines
                   /\ get_func_codeobj func = Ok codeobj
                   /\ ast_parse stdlib (join "" lines) = Ok ast_tree
                   /\ In n (preorder ast_tree)
                   /\ starts_on (co_firstlineno codeobj) n = true
                   /\ ast_unparse stdlib n = Ok code
                   /\ fst (get_func_code_or_none IS_PYTHON_AT_LEAST_3_9
                             stdlib func cls) = Some code).
  { destruct IS_PYTHON_AT_LEAST_3_9; getter_cases; cbn [fst];
      try (left; reflexivity); right;
      match goal with
      | Hu : unparse_lambdas _ _ _ = Ok (_ :: _) |- _ =>
          destruct (unparse_lambdas_first _ _ _ Hu) as (n & Hin & Hon & Hn)
      end;
      match goal with
      | Hj : join "" _ = _, Hp : ast_parse _ _ = Ok _ |- _ =>
          rewrite <- Hj in Hp
      end;
      do 5 eexists; repeat split; eauto. }
  split; [exact H|].
  intros lines_code Hl. destruct H as [H|H].
  - exists lines_code. rewrite H. exact Hl.
  - destruct H as (_ & _ & _ & _ & code & _ & _ & _ & _ & _ & _ & H).
    exists code. exact H.
Qed.

(** X15. On a tree whose line numbers are ordered (nothing under a lambda
    starts before it), leaving out what lies under a lambda that starts after
    the line loses nothing: the unparser unparses exactly the lambdas of the
    whole tree that start on the line, in pre-order. *)
Theorem unparser_misses_no_lambda_of_the_line
  stdlib (line : Z) (ast_tree : node) :
  lines_ordered ast_tree = true ->
  0 <= line ->
  unparse_lambdas stdlib line ast_tree
  = unparse_each stdlib (filter (starts_on line) (preorder ast_tree)).
Proof.
  intros Ho Hline.
  rewrite (unparse_lambdas_spec _ _ Hline), (lambdas_on_preorder _ _ Ho).
  reflexivity.
Qed.

Lemma unparser_misses_no_lambda_of_the_line_witness :
  unparse_lambdas sample_stdlib 1 two_lambdas_tree
  = Ok ["lambda: 'and black,'"; "lambda: 'and pale,'"]
  /\ unparse_lambdas sample_stdlib 2 disordered_tree = Ok []
  /\ unparse_each sample_stdlib
       (filter (starts_on 2) (preorder disordered_tree))
     = Ok ["lambda: 0"].
Proof.
  assert (Hline : 0 <= 1) by lia.
  split; [|split; reflexivity].
  rewrite (@unparser_misses_no_lambda_of_the_line
             sample_stdlib 1 two_lambdas_tree eq_refl Hline).
  reflexivity.
Defined.

End FuncCodeFacts.
